(** * pyzeppelin: the Zeppelin notebook REST client ([zeppelin.py])

    A shallow embedding of [ZeppelinClient] and of the parts of Python and of
    the [requests] library it relies on:

    - Python values as they come back from [Response.json()];
    - exceptions and results, with a state-and-error monad [Py];
    - [str.format] on the templates the client uses;
    - the object heap holding [ZeppelinClient] instances, the module
      globals, and the log of the calls made into [requests];
    - the eighteen public methods, the constructor, [_login] and
      [_talk_to_host].

    The remote server is a parameter: it maps the history of calls made so
    far (the last one being the call to answer) to a reply. *)

From Stdlib Require Import ZArith Ascii String.
From stdpp Require Import base strings gmap list pretty.

Set Warnings "-register-all".
Open Scope Z_scope.

(** ** Python values *)

(** What [json.loads] can produce, plus opaque objects (modules, classes)
    that only occur as module globals.  A float is kept as its literal. *)
Inductive pyvalue : Type :=
  | PyNone
  | PyBool (b : bool)
  | PyInt (z : Z)
  | PyFloat (lit : string)
  | PyStr (s : string)
  | PyList (l : list pyvalue)
  | PyDict (d : gmap string pyvalue)
  | PyOpaque (descr : string).

(** ** Exceptions and results *)

Inductive PyExc : Type :=
  | NameError (name : string)
  | KeyError (key : string)
  | IndexError
  | ValueError
  | TypeError
  | AttributeError (attr : string)
  | NotImplementedError
  | Exception_ (msg : string)
  | ConnectionError.

(** [Unmodelled] is not a Python outcome: it marks a use of a library
    feature that this development does not describe (conversions and
    format specifications in [str.format], for instance). *)
Inductive result (A : Type) : Type :=
  | Return (a : A)
  | Raise (e : PyExc)
  | Unmodelled.
Arguments Return {A} a.
Arguments Raise {A} e.
Arguments Unmodelled {A}.

Definition result_bind {A B} (r : result A) (k : A → result B) : result B :=
  match r with
  | Return a => k a
  | Raise e => Raise e
  | Unmodelled => Unmodelled
  end.

(** ** Strings *)

(** The double-quote character, as a one-character string. *)
Definition dquote : string := String "034"%char EmptyString.

Definition is_brace (c : ascii) : bool :=
  (Ascii.eqb c "{" || Ascii.eqb c "}")%char.

Fixpoint brace_free (s : string) : bool :=
  match s with
  | EmptyString => true
  | String c s' => negb (is_brace c) && brace_free s'
  end.

Definition is_digit (c : ascii) : bool :=
  let n := nat_of_ascii c in (48 <=? n)%nat && (n <=? 57)%nat.

Definition is_ident_char (c : ascii) : bool :=
  let n := nat_of_ascii c in
  ((65 <=? n)%nat && (n <=? 90)%nat) || ((97 <=? n)%nat && (n <=? 122)%nat)
  || Ascii.eqb c "_"%char || is_digit c.

Fixpoint all_ident_chars (s : string) : bool :=
  match s with
  | EmptyString => true
  | String c s' => is_ident_char c && all_ident_chars s'
  end.

(** A keyword field name: an identifier that does not start with a digit. *)
Definition plain_name (s : string) : bool :=
  match s with
  | EmptyString => false
  | String c _ => negb (is_digit c) && all_ident_chars s
  end.

(** ** [str.format] *)

(** Keyword arguments of a call, in the order written. *)
Definition kwargs : Type := list (string * pyvalue).

Fixpoint lookup_kw (name : string) (kw : kwargs) : option pyvalue :=
  match kw with
  | [] => None
  | (k, v) :: kw' => if String.eqb k name then Some v else lookup_kw name kw'
  end.

(** [format(v, '')], what a replacement field without conversion and
    without format specification inserts. *)
Definition format_value (v : pyvalue) : result string :=
  match v with
  | PyStr s => Return s
  | PyInt z => Return (pretty z)
  | PyNone => Return "None"
  | PyBool true => Return "True"
  | PyBool false => Return "False"
  | _ => Unmodelled
  end.

(** A replacement field [{name}].  The empty field is positional and there
    are no positional arguments; a keyword that was not passed is a
    [KeyError]; attribute and index access, conversions, format
    specifications and numbered fields are outside the model. *)
Definition format_field (name : string) (kw : kwargs) : result string :=
  match name with
  | EmptyString => Raise IndexError
  | _ =>
      if plain_name name then
        match lookup_kw name kw with
        | Some v => format_value v
        | None => Raise (KeyError name)
        end
      else Unmodelled
  end.

(** The scanner of [str.format], left to right.  [field = None]: in
    literal text, where a doubled brace is an escaped brace and a single
    closing brace is an error.  [field = Some name]: inside a replacement
    field whose text so far is [name]; the field ends at the next closing
    brace, and the end of the template before that is an error. *)
Fixpoint format_from (t : string) (field : option string) (kw : kwargs)
  : result string :=
  match t, field with
  | EmptyString, None => Return EmptyString
  | EmptyString, Some _ => Raise ValueError
  | String c t', Some name =>
      if Ascii.eqb c "}"%char then
        result_bind (format_field name kw) (λ v,
        result_bind (format_from t' None kw) (λ rest,
        Return (v +:+ rest)))
      else if Ascii.eqb c "{"%char then Unmodelled
      else format_from t' (Some (name +:+ String c EmptyString)) kw
  | String c t', None =>
      if Ascii.eqb c "{"%char then
        match t' with
        | EmptyString => Raise ValueError
        | String c2 t'' =>
            if Ascii.eqb c2 "{"%char then
              result_bind (format_from t'' None kw) (λ rest,
              Return (String "{"%char rest))
            else format_from t' (Some EmptyString) kw
        end
      else if Ascii.eqb c "}"%char then
        match t' with
        | EmptyString => Raise ValueError
        | String c2 t'' =>
            if Ascii.eqb c2 "}"%char then
              result_bind (format_from t'' None kw) (λ rest,
              Return (String "}"%char rest))
            else Raise ValueError
        end
      else
        result_bind (format_from t' None kw) (λ rest,
        Return (String c rest))
  end.

(** [template.format(k1=v1, ...)], the keyword arguments being [kw] *)
Definition str_format (template : string) (kw : kwargs) : result string :=
  format_from template None kw.

Fixpoint no_percent (s : string) : bool :=
  match s with
  | EmptyString => true
  | String c s' => negb (Ascii.eqb c "%"%char) && no_percent s'
  end.

(** [template % arg] for a string [arg].  The template must hold exactly
    one conversion, for which there is one argument: without any, Python
    raises [TypeError] (not all arguments converted).  Only [%s] is
    described; any other use of the percent sign is outside the model. *)
Fixpoint percent_format (template arg : string) : result string :=
  match template with
  | EmptyString => Raise TypeError
  | String c t' =>
      if Ascii.eqb c "%"%char then
        match t' with
        | String c2 t'' =>
            if Ascii.eqb c2 "s"%char && no_percent t''
            then Return (arg +:+ t'')
            else Unmodelled
        | EmptyString => Unmodelled
        end
      else result_bind (percent_format t' arg) (λ rest, Return (String c rest))
  end.

(** ** The [requests] library *)

(** A [requests.Session] object, by reference. *)
Definition SessionRef : Type := nat.

(** One call [session.request(method, url, data=data)].  The model is at
    the level of calls into the library: redirects the library follows on
    its own are part of the reply. *)
Record Request : Type := mkRequest {
  method : string;
  url : string;
  data : option string
}.

(** A [requests.Response]: its status code, its reason phrase, and what
    [json()] decodes from its content ([None] when the content is not
    JSON). *)
Record Response : Type := mkResponse {
  status_code : Z;
  reason : string;
  json_body : option pyvalue
}.

(** What a call gets back: a response, or an exception of the transport
    (connection refused, timeout). *)
Inductive Reply : Type :=
  | Responded (r : Response)
  | TransportError.

(** A call as logged: the session it went over and the request. *)
Definition Exchange : Type := SessionRef * Request.

(** [Response.ok]: [raise_for_status()] raises exactly for the client and
    server error codes, 400 to 599. *)
Definition Response_ok (r : Response) : bool :=
  negb ((400 <=? status_code r) && (status_code r <? 600)).

(** [Response.json()]: a [ValueError] when the content does not decode. *)
Definition Response_json (r : Response) : result pyvalue :=
  match json_body r with
  | Some v => Return v
  | None => Raise ValueError
  end.

(** [v[key]] for a string key. *)
Definition getitem (v : pyvalue) (key : string) : result pyvalue :=
  match v with
  | PyDict d =>
      match d !! key with
      | Some x => Return x
      | None => Raise (KeyError key)
      end
  | PyOpaque _ => Unmodelled
  | _ => Raise TypeError
  end.

(** ** Program state *)

(** Object references. *)
Abbreviation loc := positive (only parsing).

(** The attributes of a [ZeppelinClient] instance; an attribute that has
    not been assigned yet is [None]. *)
Record Instance : Type := mkInstance {
  session : option SessionRef;
  baseuri : option string
}.

Definition empty_instance : Instance :=
  {| session := None; baseuri := None |}.

Record State : Type := mkState {
  heap : gmap loc Instance;          (* the ZeppelinClient objects *)
  next_session : SessionRef;         (* sessions created so far *)
  net : list Exchange;               (* calls into requests, oldest first *)
  globals : gmap string pyvalue      (* the namespace of module zeppelin *)
}.

Definition BASEURI_PATTERN : string := "http://{host}:{port}/api".

(** The names the module binds: [import requests], [BASEURI_PATTERN] and
    the class. *)
Definition module_globals : gmap string pyvalue :=
  {[ "requests" := PyOpaque "module requests";
     "BASEURI_PATTERN" := PyStr BASEURI_PATTERN;
     "ZeppelinClient" := PyOpaque "class ZeppelinClient" ]}.

Definition initial_state : State :=
  {| heap := ∅; next_session := 0%nat; net := []; globals := module_globals |}.

Definition set_heap (h : gmap loc Instance) (σ : State) : State :=
  {| heap := h; next_session := next_session σ; net := net σ;
     globals := globals σ |}.

Definition set_next_session (n : SessionRef) (σ : State) : State :=
  {| heap := heap σ; next_session := n; net := net σ; globals := globals σ |}.

Definition set_net (l : list Exchange) (σ : State) : State :=
  {| heap := heap σ; next_session := next_session σ; net := l;
     globals := globals σ |}.

(** ** The monad of Python computations *)

Definition Py (A : Type) : Type := State → result A * State.

#[global] Instance Py_ret : MRet Py := λ A a σ, (Return a, σ).

#[global] Instance Py_bind : MBind Py := λ A B k m σ,
  match m σ with
  | (Return a, σ') => k a σ'
  | (Raise e, σ') => (Raise e, σ')
  | (Unmodelled, σ') => (Unmodelled, σ')
  end.

Definition raise {A} (e : PyExc) : Py A := λ σ, (Raise e, σ).

Definition lift {A} (r : result A) : Py A := λ σ, (r, σ).

(** [self.baseuri] and [self.session], read.  A reference to no object
    cannot arise in Python. *)
Definition get_baseuri (self : loc) : Py string := λ σ,
  match heap σ !! self with
  | Some i =>
      match baseuri i with
      | Some b => (Return b, σ)
      | None => (Raise (AttributeError "baseuri"), σ)
      end
  | None => (Unmodelled, σ)
  end.

Definition get_session (self : loc) : Py SessionRef := λ σ,
  match heap σ !! self with
  | Some i =>
      match session i with
      | Some s => (Return s, σ)
      | None => (Raise (AttributeError "session"), σ)
      end
  | None => (Unmodelled, σ)
  end.

(** [self.session = s] and [self.baseuri = b] *)
Definition set_session (self : loc) (s : SessionRef) : Py unit := λ σ,
  match heap σ !! self with
  | Some i =>
      (Return (),
       set_heap (<[self := {| session := Some s; baseuri := baseuri i |}]>
                   (heap σ)) σ)
  | None => (Unmodelled, σ)
  end.

Definition set_baseuri (self : loc) (b : string) : Py unit := λ σ,
  match heap σ !! self with
  | Some i =>
      (Return (),
       set_heap (<[self := {| session := session i; baseuri := Some b |}]>
                   (heap σ)) σ)
  | None => (Unmodelled, σ)
  end.

(** A name that is neither a local nor a parameter is looked up in the
    module globals (no builtin is called [noteid]). *)
Definition load_global (name : string) : Py pyvalue := λ σ,
  match globals σ !! name with
  | Some v => (Return v, σ)
  | None => (Raise (NameError name), σ)
  end.

(** A new, empty instance, as [object.__new__] makes it. *)
Definition new_instance : Py loc := λ σ,
  let l := fresh (dom (heap σ)) in
  (Return l, set_heap (<[l := empty_instance]> (heap σ)) σ).

(** [requests.Session()] *)
Definition Session_new : Py SessionRef := λ σ,
  (Return (next_session σ), set_next_session (S (next_session σ)) σ).

(** ** The client *)

Section Client.

(** The remote side: given the calls made so far, the last one being the
    call to answer, what that call gets back. *)
Variable server : list Exchange → Reply.

(** [session.request(method, url, data=data)] *)
Definition Session_request (s : SessionRef) (method_ url_ : string)
    (data_ : option string) : Py Response := λ σ,
  let log := net σ ++ [(s, mkRequest method_ url_ data_)] in
  match server log with
  | Responded r => (Return r, set_net log σ)
  | TransportError => (Raise ConnectionError, set_net log σ)
  end.

(** [session.post(url)], which is [session.request('POST', url)] *)
Definition Session_post (s : SessionRef) (url_ : string) : Py Response :=
  Session_request s "POST" url_ None.

(** The login URI is formatted as a whole: the base URI is part of the
    template that [format] scans. *)
Definition _login (self : loc) (username password : string) : Py pyvalue :=
  b ← get_baseuri self;
  uri ← lift (str_format
                (b +:+ "/login?userName={username}&password={password}")
                [("username", PyStr username); ("password", PyStr password)]);
  s ← get_session self;
  r ← Session_post s uri;
  if negb (Response_ok r)
  then raise (Exception_ (reason r +:+ ": cannot login to zeppelin : " +:+ uri))
  else mret PyNone.

(** [auth] is [None] or a pair, which is true as a condition whatever
    the two strings are.  The extra keyword options the constructor accepts
    are not used by it. *)
Definition __init__ (self : loc) (host : string) (port : Z)
    (auth : option (string * string)) (baseuri_pattern : string)
  : Py pyvalue :=
  s ← Session_new;
  _ ← set_session self s;
  b ← lift (str_format baseuri_pattern
              [("host", PyStr host); ("port", PyInt port)]);
  _ ← set_baseuri self b;
  match auth with
  | Some (username, password) => _login self username password
  | None => mret PyNone
  end.

(** The call [ZeppelinClient(host, port, auth, baseuri_pattern)]: a new
    instance, initialised. *)
Definition ZeppelinClient (host : string) (port : Z)
    (auth : option (string * string)) (baseuri_pattern : string) : Py loc :=
  self ← new_instance;
  _ ← __init__ self host port auth baseuri_pattern;
  mret self.

(** The status check of this method is commented out in the source. *)
Definition _talk_to_host (self : loc) (method_ uri : string)
    (data_ : option string) : Py Response :=
  s ← get_session self;
  r ← Session_request s method_ uri data_;
  mret r.

(** [r.json()['body']] *)
Definition json_body_of (r : Response) : Py pyvalue :=
  j ← lift (Response_json r);
  lift (getitem j "body").

(** *** Note operations *)

Definition list_notebooks (self : loc) : Py pyvalue :=
  b ← get_baseuri self;
  let uri := b +:+ "/notebook" in
  r ← _talk_to_host self "GET" uri None;
  json_body_of r.

Definition get_status_of_all_paragraphs (self : loc) (noteid : string)
  : Py pyvalue :=
  b ← get_baseuri self;
  p ← lift (str_format "/notebook/job/{noteid}" [("noteid", PyStr noteid)]);
  let uri := b +:+ p in
  r ← _talk_to_host self "GET" uri None;
  json_body_of r.

Definition get_note_info (self : loc) (noteid : string) : Py pyvalue :=
  b ← get_baseuri self;
  p ← lift (str_format "/notebook/{noteid}" [("noteid", PyStr noteid)]);
  let uri := b +:+ p in
  r ← _talk_to_host self "GET" uri None;
  json_body_of r.

Definition delete_note (self : loc) (noteid : string) : Py pyvalue :=
  b ← get_baseuri self;
  p ← lift (str_format "/notebook/{noteid}" [("noteid", PyStr noteid)]);
  let uri := b +:+ p in
  _ ← _talk_to_host self "DELETE" uri None;
  mret PyNone.

(** The body of [clone_note]'s request: ['{"name":"%s"}' % name if name
    else None].  [None] and the empty string are both false. *)
Definition clone_data (name : option string) : Py (option string) :=
  match name with
  | None | Some EmptyString => mret None
  | Some n =>
      d ← lift (percent_format
                  ("{" +:+ dquote +:+ "name" +:+ dquote +:+ ":" +:+ dquote
                   +:+ "%s" +:+ dquote +:+ "}") n);
      mret (Some d)
  end.

Definition clone_note (self : loc) (noteid : string) (name : option string)
  : Py pyvalue :=
  b ← get_baseuri self;
  p ← lift (str_format "/notebook/{noteid}" [("noteid", PyStr noteid)]);
  let uri := b +:+ p in
  data_ ← clone_data name;
  r ← _talk_to_host self "DELETE" uri data_;
  json_body_of r.

Definition export_note (self : loc) (noteid : string) : Py pyvalue :=
  raise NotImplementedError.

Definition import_note (self : loc) : Py pyvalue :=
  raise NotImplementedError.

Definition run_all_paragraph (self : loc) (noteid : string) : Py pyvalue :=
  b ← get_baseuri self;
  p ← lift (str_format "/notebook/job/{noteid}" [("noteid", PyStr noteid)]);
  let uri := b +:+ p in
  _ ← _talk_to_host self "POST" uri None;
  mret PyNone.

Definition stop_all_paragraph (self : loc) (noteid : string) : Py pyvalue :=
  b ← get_baseuri self;
  p ← lift (str_format "/notebook/job/{noteid}" [("noteid", PyStr noteid)]);
  let uri := b +:+ p in
  _ ← _talk_to_host self "DELETE" uri None;
  mret PyNone.

(** [noteid] is not a parameter of this method and is not assigned in it:
    the name is a global. *)
Definition clear_all_pargraph_results (self : loc) : Py pyvalue :=
  b ← get_baseuri self;
  noteid ← load_global "noteid";
  p ← lift (str_format "/notebook/job/{noteid}/clear" [("noteid", noteid)]);
  let uri := b +:+ p in
  _ ← _talk_to_host self "PUT" uri None;
  mret PyNone.

(** *** Paragraph operations *)

Definition create_paragraph (self : loc) (noteid : string) : Py pyvalue :=
  raise NotImplementedError.

Definition get_paragraph_info (self : loc) (noteid paragraphid : string)
  : Py pyvalue :=
  raise NotImplementedError.

Definition get_paragraph_status (self : loc) (noteid paragraphid : string)
  : Py pyvalue :=
  b ← get_baseuri self;
  p ← lift (str_format "/notebook/job/{noteid}/{paragraphid}"
              [("noteid", PyStr noteid); ("paragraphid", PyStr paragraphid)]);
  let uri := b +:+ p in
  r ← _talk_to_host self "GET" uri None;
  json_body_of r.

Definition update_paragraph_config (self : loc) (noteid paragraphid : string)
  : Py pyvalue :=
  raise NotImplementedError.

Definition delete_paragraph (self : loc) (noteid paragraphid : string)
  : Py pyvalue :=
  raise NotImplementedError.

Definition run_paragraph_asynchronously (self : loc)
    (noteid paragraphid : string) (payload : option string) : Py pyvalue :=
  b ← get_baseuri self;
  p ← lift (str_format "/notebook/job/{noteid}/{paragraphid}"
              [("noteid", PyStr noteid); ("paragraphid", PyStr paragraphid)]);
  let uri := b +:+ p in
  r ← _talk_to_host self "POST" uri payload;
  json_body_of r.

Definition run_paragraph_synchronously (self : loc)
    (noteid paragraphid : string) (payload : option string) : Py pyvalue :=
  b ← get_baseuri self;
  p ← lift (str_format "/notebook/run/{noteid}/{paragraphid}"
              [("noteid", PyStr noteid); ("paragraphid", PyStr paragraphid)]);
  let uri := b +:+ p in
  r ← _talk_to_host self "POST" uri payload;
  json_body_of r.

(** [payload] is a required parameter and is not used. *)
Definition stop_paragraph (self : loc) (noteid paragraphid : string)
    (payload : pyvalue) : Py pyvalue :=
  b ← get_baseuri self;
  p ← lift (str_format "/notebook/job/{noteid}/{paragraphid}"
              [("noteid", PyStr noteid); ("paragraphid", PyStr paragraphid)]);
  let uri := b +:+ p in
  _ ← _talk_to_host self "DELETE" uri None;
  mret PyNone.

End Client.

(** ** The public operations, as one type *)

Inductive Method : Type :=
  | m_list_notebooks
  | m_get_status_of_all_paragraphs
  | m_get_note_info
  | m_delete_note
  | m_clone_note
  | m_export_note
  | m_import_note
  | m_run_all_paragraph
  | m_stop_all_paragraph
  | m_clear_all_pargraph_results
  | m_create_paragraph
  | m_get_paragraph_info
  | m_get_paragraph_status
  | m_update_paragraph_config
  | m_delete_paragraph
  | m_run_paragraph_asynchronously
  | m_run_paragraph_synchronously
  | m_stop_paragraph.

(** A call of a public method, with its arguments. *)
Inductive Op : Type :=
  | ListNotebooks
  | GetStatusOfAllParagraphs (noteid : string)
  | GetNoteInfo (noteid : string)
  | DeleteNote (noteid : string)
  | CloneNote (noteid : string) (name : option string)
  | ExportNote (noteid : string)
  | ImportNote
  | RunAllParagraph (noteid : string)
  | StopAllParagraph (noteid : string)
  | ClearAllPargraphResults
  | CreateParagraph (noteid : string)
  | GetParagraphInfo (noteid paragraphid : string)
  | GetParagraphStatus (noteid paragraphid : string)
  | UpdateParagraphConfig (noteid paragraphid : string)
  | DeleteParagraph (noteid paragraphid : string)
  | RunParagraphAsynchronously (noteid paragraphid : string)
      (payload : option string)
  | RunParagraphSynchronously (noteid paragraphid : string)
      (payload : option string)
  | StopParagraph (noteid paragraphid : string) (payload : pyvalue).

Definition method_of (op : Op) : Method :=
  match op with
  | ListNotebooks => m_list_notebooks
  | GetStatusOfAllParagraphs _ => m_get_status_of_all_paragraphs
  | GetNoteInfo _ => m_get_note_info
  | DeleteNote _ => m_delete_note
  | CloneNote _ _ => m_clone_note
  | ExportNote _ => m_export_note
  | ImportNote => m_import_note
  | RunAllParagraph _ => m_run_all_paragraph
  | StopAllParagraph _ => m_stop_all_paragraph
  | ClearAllPargraphResults => m_clear_all_pargraph_results
  | CreateParagraph _ => m_create_paragraph
  | GetParagraphInfo _ _ => m_get_paragraph_info
  | GetParagraphStatus _ _ => m_get_paragraph_status
  | UpdateParagraphConfig _ _ => m_update_paragraph_config
  | DeleteParagraph _ _ => m_delete_paragraph
  | RunParagraphAsynchronously _ _ _ => m_run_paragraph_asynchronously
  | RunParagraphSynchronously _ _ _ => m_run_paragraph_synchronously
  | StopParagraph _ _ _ => m_stop_paragraph
  end.

(** The note and paragraph identifiers a call passes (empty when the
    method has no such parameter). *)
Definition noteid_of (op : Op) : string :=
  match op with
  | GetStatusOfAllParagraphs n | GetNoteInfo n | DeleteNote n | CloneNote n _
  | ExportNote n | RunAllParagraph n | StopAllParagraph n | CreateParagraph n
  | GetParagraphInfo n _ | GetParagraphStatus n _ | UpdateParagraphConfig n _
  | DeleteParagraph n _ | RunParagraphAsynchronously n _ _
  | RunParagraphSynchronously n _ _ | StopParagraph n _ _ => n
  | ListNotebooks | ImportNote | ClearAllPargraphResults => EmptyString
  end.

Definition paragraphid_of (op : Op) : string :=
  match op with
  | GetParagraphInfo _ p | GetParagraphStatus _ p | UpdateParagraphConfig _ p
  | DeleteParagraph _ p | RunParagraphAsynchronously _ p _
  | RunParagraphSynchronously _ p _ | StopParagraph _ p _ => p
  | _ => EmptyString
  end.

Definition call (server : list Exchange → Reply) (op : Op) (self : loc)
  : Py pyvalue :=
  match op with
  | ListNotebooks => list_notebooks server self
  | GetStatusOfAllParagraphs n => get_status_of_all_paragraphs server self n
  | GetNoteInfo n => get_note_info server self n
  | DeleteNote n => delete_note server self n
  | CloneNote n name => clone_note server self n name
  | ExportNote n => export_note self n
  | ImportNote => import_note self
  | RunAllParagraph n => run_all_paragraph server self n
  | StopAllParagraph n => stop_all_paragraph server self n
  | ClearAllPargraphResults => clear_all_pargraph_results server self
  | CreateParagraph n => create_paragraph self n
  | GetParagraphInfo n p => get_paragraph_info self n p
  | GetParagraphStatus n p => get_paragraph_status server self n p
  | UpdateParagraphConfig n p => update_paragraph_config self n p
  | DeleteParagraph n p => delete_paragraph self n p
  | RunParagraphAsynchronously n p d =>
      run_paragraph_asynchronously server self n p d
  | RunParagraphSynchronously n p d =>
      run_paragraph_synchronously server self n p d
  | StopParagraph n p d => stop_paragraph server self n p d
  end.

(** ** The operation table of the specification *)

(** One row: the verb, the path as a function of the note and paragraph
    identifiers, and whether the operation extracts the body. *)
Record Row : Type := mkRow {
  row_verb : string;
  row_path : string → string → string;
  row_extracts_body : bool
}.

(** The table, row by row; the rows of the unimplemented operations hold
    dashes.  The row of clone note reads "POST (bug: sends DELETE)": the
    verb it documents as sent is DELETE. *)
Definition operation_table (m : Method) : option Row :=
  match m with
  | m_list_notebooks =>
      Some (mkRow "GET" (λ _ _, "/notebook") true)
  | m_get_status_of_all_paragraphs =>
      Some (mkRow "GET" (λ n _, "/notebook/job/" +:+ n) true)
  | m_get_note_info =>
      Some (mkRow "GET" (λ n _, "/notebook/" +:+ n) true)
  | m_delete_note =>
      Some (mkRow "DELETE" (λ n _, "/notebook/" +:+ n) false)
  | m_clone_note =>
      Some (mkRow "DELETE" (λ n _, "/notebook/" +:+ n) true)
  | m_export_note | m_import_note => None
  | m_run_all_paragraph =>
      Some (mkRow "POST" (λ n _, "/notebook/job/" +:+ n) false)
  | m_stop_all_paragraph =>
      Some (mkRow "DELETE" (λ n _, "/notebook/job/" +:+ n) false)
  | m_clear_all_pargraph_results =>
      Some (mkRow "PUT" (λ n _, "/notebook/job/" +:+ n +:+ "/clear") false)
  | m_create_paragraph | m_get_paragraph_info | m_update_paragraph_config
  | m_delete_paragraph => None
  | m_get_paragraph_status =>
      Some (mkRow "GET" (λ n p, "/notebook/job/" +:+ n +:+ "/" +:+ p) true)
  | m_run_paragraph_asynchronously =>
      Some (mkRow "POST" (λ n p, "/notebook/job/" +:+ n +:+ "/" +:+ p) true)
  | m_run_paragraph_synchronously =>
      Some (mkRow "POST" (λ n p, "/notebook/run/" +:+ n +:+ "/" +:+ p) true)
  | m_stop_paragraph =>
      Some (mkRow "DELETE" (λ n p, "/notebook/job/" +:+ n +:+ "/" +:+ p) false)
  end.

(** The operations that are implemented and bind all the names they use. *)
Definition implemented (m : Method) : bool :=
  match m with
  | m_list_notebooks | m_get_status_of_all_paragraphs | m_get_note_info
  | m_delete_note | m_clone_note | m_run_all_paragraph | m_stop_all_paragraph
  | m_get_paragraph_status | m_run_paragraph_asynchronously
  | m_run_paragraph_synchronously | m_stop_paragraph => true
  | _ => false
  end.

(** The operations whose body is [raise NotImplementedError]. *)
Definition unimplemented (m : Method) : bool :=
  match m with
  | m_export_note | m_import_note | m_create_paragraph | m_get_paragraph_info
  | m_update_paragraph_config | m_delete_paragraph => true
  | _ => false
  end.

(** A client as the constructor leaves it: both attributes assigned. *)
Definition constructed (σ : State) (self : loc) (s : SessionRef) (b : string)
  : Prop :=
  heap σ !! self = Some {| session := Some s; baseuri := Some b |}.

(** What the operation does with the response: extract the body, or
    return nothing. *)
Definition finish (extracts : bool) (r : Response) : Py pyvalue :=
  if extracts then json_body_of r else mret PyNone.

(** The request body a call sends. *)
Definition clone_body (name : option string) : option string :=
  match name with
  | None | Some EmptyString => None
  | Some n =>
      Some ("{" +:+ dquote +:+ "name" +:+ dquote +:+ ":" +:+ dquote
            +:+ n +:+ dquote +:+ "}")
  end.

Definition request_data (op : Op) : option string :=
  match op with
  | CloneNote _ name => clone_body name
  | RunParagraphAsynchronously _ _ d | RunParagraphSynchronously _ _ d => d
  | _ => None
  end.

(** The base URI of the instance at [self], if it has one. *)
Definition baseuri_of (σ : State) (self : loc) : option string :=
  i ← heap σ !! self; baseuri i.

Definition session_of (σ : State) (self : loc) : option SessionRef :=
  i ← heap σ !! self; session i.

(** ** Templates with placeholders, as the specification speaks of them *)

(** A base-URI template seen as literal text between occurrences of the
    two placeholders. *)
Inductive Segment : Type :=
  | Lit (s : string)
  | HostField
  | PortField.

Definition segment_text (seg : Segment) : string :=
  match seg with
  | Lit s => s
  | HostField => "{host}"
  | PortField => "{port}"
  end.

Fixpoint template_of (segs : list Segment) : string :=
  match segs with
  | [] => EmptyString
  | seg :: segs' => segment_text seg +:+ template_of segs'
  end.

(** Each placeholder replaced by its value, once: the values are not
    scanned again. *)
Definition segment_value (host : string) (port : Z) (seg : Segment) : string :=
  match seg with
  | Lit s => s
  | HostField => host
  | PortField => pretty port
  end.

Fixpoint substitute (host : string) (port : Z) (segs : list Segment) : string :=
  match segs with
  | [] => EmptyString
  | seg :: segs' => segment_value host port seg +:+ substitute host port segs'
  end.

Definition literal_ok (seg : Segment) : bool :=
  match seg with
  | Lit s => brace_free s
  | _ => true
  end.

Definition default_segments : list Segment :=
  [Lit "http://"; HostField; Lit ":"; PortField; Lit "/api"].

(** The keyword arguments of the two [format] calls of the constructor
    and of [_login]. *)
Definition init_kwargs (host : string) (port : Z) : kwargs :=
  [("host", PyStr host); ("port", PyInt port)].

Definition login_kwargs (username password : string) : kwargs :=
  [("username", PyStr username); ("password", PyStr password)].

Definition login_uri (b username password : string) : string :=
  b +:+ "/login?userName=" +:+ username +:+ "&password=" +:+ password.

(** ** Computations that do not touch the state *)

(** A computation that leaves the state alone. *)
Definition silent {A} (m : Py A) : Prop := ∀ σ, (m σ).2 = σ.

(** A computation that leaves everything but the log of calls alone. *)
Definition frames {A} (m : Py A) : Prop :=
  ∀ σ, heap (m σ).2 = heap σ
       ∧ next_session (m σ).2 = next_session σ
       ∧ globals (m σ).2 = globals σ.

(** ** Construction, step by step *)

(** The state after [__init__] has assigned [self.session] and, when
    [b] is given, [self.baseuri]. *)
Definition after_init (σ : State) (self : loc) (b : option string) : State :=
  {| heap := <[self := {| session := Some (next_session σ); baseuri := b |}]>
               (heap σ);
     next_session := S (next_session σ);
     net := net σ;
     globals := globals σ |}.

(** ** Concrete servers and states *)

Definition example_baseuri : string := "http://localhost:6080/api".

(** The state after [ZeppelinClient()] with all the defaults. *)
Definition example_state : State :=
  {| heap := {[ 1%positive := {| session := Some 0%nat;
                                 baseuri := Some example_baseuri |} ]};
     next_session := 1%nat;
     net := [];
     globals := module_globals |}.

(** The reply to a listing of the notes: an object with a status and a
    body, the body being a list of one note. *)
Definition notes_body : pyvalue :=
  PyList [PyDict {[ "id" := PyStr "2A94M5J1Z"; "name" := PyStr "note1" ]}].

Definition notes_json : gmap string pyvalue :=
  {[ "status" := PyStr "OK"; "body" := notes_body ]}.

Definition notes_response : Response :=
  {| status_code := 200; reason := "OK"; json_body := Some (PyDict notes_json) |}.

Definition not_modified : Response :=
  {| status_code := 304; reason := "Not Modified"; json_body := None |}.

Definition unauthorized : Response :=
  {| status_code := 401; reason := "Unauthorized"; json_body := None |}.

(** An error payload: an object without a body. *)
Definition error_json : gmap string pyvalue :=
  {[ "status" := PyStr "INTERNAL_SERVER_ERROR"; "message" := PyStr "failed" ]}.

Definition server_error : Response :=
  {| status_code := 500;
     reason := "Internal Server Error";
     json_body := Some (PyDict error_json) |}.

Definition always (r : Response) : list Exchange → Reply := λ _, Responded r.

(** ** Callers *)

(** The request an operation with a row in the table sends, for a client
    whose base URI is [b]. *)
Definition request_of (b : string) (op : Op) : option Request :=
  row ← operation_table (method_of op);
  Some (mkRequest (row_verb row)
          (b +:+ row_path row (noteid_of op) (paragraphid_of op))
          (request_data op)).

(** A caller that invokes the operations one after the other on the same
    client, going on after an exception. *)
Fixpoint run_ops (server : list Exchange → Reply) (ops : list Op) (self : loc)
    (σ : State) : State :=
  match ops with
  | [] => σ
  | op :: ops' => run_ops server ops' self (call server op self σ).2
  end.

(** A computation that issues no request, or one request over the session
    of the client at [self]. *)
Definition sends_at_most_once {A} (self : loc) (m : Py A) : Prop :=
  ∀ σ, net (m σ).2 = net σ
       ∨ ∃ s req, session_of σ self = Some s
                  ∧ net (m σ).2 = net σ ++ [(s, req)].

(** A string with every brace doubled, the way [str.format] wants literal
    braces written. *)
Fixpoint escape_braces (s : string) : string :=
  match s with
  | EmptyString => EmptyString
  | String c s' =>
      if is_brace c then String c (String c (escape_braces s'))
      else String c (escape_braces s')
  end.


(** The values that JSON decodes to and that are not objects. *)
Definition json_non_object (v : pyvalue) : bool :=
  match v with
  | PyNone | PyBool _ | PyInt _ | PyFloat _ | PyStr _ | PyList _ => true
  | PyDict _ | PyOpaque _ => false
  end.

(** A transport that fails every call, and a server that answers the
    notes with a server-error status. *)
Definition unreachable : list Exchange → Reply := λ _, TransportError.

Definition notes_response_500 : Response :=
  {| status_code := 500;
     reason := "Internal Server Error";
     json_body := Some (PyDict notes_json) |}.

Definition list_response : Response :=
  {| status_code := 200; reason := "OK"; json_body := Some (PyList []) |}.

Definition null_response : Response :=
  {| status_code := 200; reason := "OK"; json_body := Some PyNone |}.

Definition html_response : Response :=
  {| status_code := 502; reason := "Bad Gateway"; json_body := None |}.

(** * Properties *)

(** ** Strings and [str.format] *)

Lemma append_empty_r (s : string) : s +:+ "" = s.
Proof.
  induction s as [|c s IH]; [reflexivity|].
  change (String c (s +:+ "") = String c s). by rewrite IH.
Qed.

Lemma append_cons (c : ascii) (s t : string) :
  String c s +:+ t = String c (s +:+ t).
Proof. reflexivity. Qed.

Lemma append_assoc (s t u : string) : (s +:+ t) +:+ u = s +:+ t +:+ u.
Proof.
  induction s as [|c s IH]; [reflexivity|].
  rewrite !append_cons. by rewrite IH.
Qed.

Lemma brace_free_cons (c : ascii) (s : string) :
  brace_free (String c s) = true →
  Ascii.eqb c "{" = false ∧ Ascii.eqb c "}" = false ∧ brace_free s = true.
Proof.
  simpl. unfold is_brace.
  destruct (Ascii.eqb c "{"), (Ascii.eqb c "}"), (brace_free s);
    simpl; intros; try discriminate; auto.
Qed.

Lemma brace_free_app (s t : string) :
  brace_free s = true → brace_free t = true → brace_free (s +:+ t) = true.
Proof.
  intros Hs Ht. induction s as [|c s IH]; [exact Ht|].
  rewrite append_cons. simpl in *.
  destruct (negb (is_brace c)); [|discriminate]. simpl in *. auto.
Qed.

(** Literal text without braces is copied. *)
Lemma format_from_literal (s rest : string) (kw : kwargs) :
  brace_free s = true →
  format_from (s +:+ rest) None kw
  = result_bind (format_from rest None kw) (λ r, Return (s +:+ r)).
Proof.
  induction s as [|c s IH]; intros Hs.
  - change ("" +:+ rest) with rest.
    destruct (format_from rest None kw); reflexivity.
  - apply brace_free_cons in Hs as (Ho & Hc & Hs).
    rewrite append_cons. simpl. rewrite Ho, Hc, (IH Hs).
    destruct (format_from rest None kw); reflexivity.
Qed.

Lemma format_from_host (host : string) (port : Z) (rest : string) :
  format_from ("{host}" +:+ rest) None (init_kwargs host port)
  = result_bind (format_from rest None (init_kwargs host port))
      (λ r, Return (host +:+ r)).
Proof. reflexivity. Qed.

Lemma format_from_port (host : string) (port : Z) (rest : string) :
  format_from ("{port}" +:+ rest) None (init_kwargs host port)
  = result_bind (format_from rest None (init_kwargs host port))
      (λ r, Return (pretty port +:+ r)).
Proof. reflexivity. Qed.

(** [str.format] on a template made of brace-free text and the two
    placeholders substitutes every placeholder, in one pass. *)
Lemma str_format_template (host : string) (port : Z) (segs : list Segment) :
  Forall (λ seg, literal_ok seg = true) segs →
  str_format (template_of segs) (init_kwargs host port)
  = Return (substitute host port segs).
Proof.
  unfold str_format. induction 1 as [|seg segs Hseg _ IH]; [reflexivity|].
  cbn [template_of substitute].
  destruct seg as [s| |]; cbn [segment_text segment_value].
  - rewrite (format_from_literal _ _ _ Hseg), IH. reflexivity.
  - rewrite format_from_host, IH. reflexivity.
  - rewrite format_from_port, IH. reflexivity.
Qed.

Lemma format_note (n : string) :
  str_format "/notebook/{noteid}" [("noteid", PyStr n)]
  = Return ("/notebook/" +:+ n).
Proof. unfold str_format. simpl. rewrite append_empty_r. reflexivity. Qed.

Lemma format_job (n : string) :
  str_format "/notebook/job/{noteid}" [("noteid", PyStr n)]
  = Return ("/notebook/job/" +:+ n).
Proof. unfold str_format. simpl. rewrite append_empty_r. reflexivity. Qed.

Lemma format_job_paragraph (n p : string) :
  str_format "/notebook/job/{noteid}/{paragraphid}"
    [("noteid", PyStr n); ("paragraphid", PyStr p)]
  = Return ("/notebook/job/" +:+ n +:+ "/" +:+ p).
Proof. unfold str_format. simpl. rewrite append_empty_r. reflexivity. Qed.

Lemma format_run_paragraph (n p : string) :
  str_format "/notebook/run/{noteid}/{paragraphid}"
    [("noteid", PyStr n); ("paragraphid", PyStr p)]
  = Return ("/notebook/run/" +:+ n +:+ "/" +:+ p).
Proof. unfold str_format. simpl. rewrite append_empty_r. reflexivity. Qed.

Lemma format_clear (n : string) :
  str_format "/notebook/job/{noteid}/clear" [("noteid", PyStr n)]
  = Return ("/notebook/job/" +:+ n +:+ "/clear").
Proof. reflexivity. Qed.

(** The login URI, when the base URI holds no brace: user name and
    password are inserted as given. *)
Lemma format_login (b u p : string) :
  brace_free b = true →
  str_format (b +:+ "/login?userName={username}&password={password}")
    (login_kwargs u p)
  = Return (login_uri b u p).
Proof.
  intros Hb. unfold str_format, login_uri.
  rewrite (format_from_literal _ _ _ Hb). simpl.
  rewrite append_empty_r. reflexivity.
Qed.

Lemma clone_data_eq (name : option string) (σ : State) :
  clone_data name σ = (Return (clone_body name), σ).
Proof. destruct name as [[|c n]|]; reflexivity. Qed.

(** ** The monad *)

Lemma bind_eq {A B} (m : Py A) (k : A → Py B) (σ : State) :
  (m ≫= k) σ
  = match m σ with
    | (Return a, σ') => k a σ'
    | (Raise e, σ') => (Raise e, σ')
    | (Unmodelled, σ') => (Unmodelled, σ')
    end.
Proof. reflexivity. Qed.

Lemma silent_frames {A} (m : Py A) : silent m → frames m.
Proof. intros Hm σ. by rewrite (Hm σ). Qed.

Lemma silent_bind {A B} (m : Py A) (k : A → Py B) :
  silent m → (∀ a, silent (k a)) → silent (m ≫= k).
Proof.
  intros Hm Hk σ. rewrite bind_eq. specialize (Hm σ).
  destruct (m σ) as [[a|e|] σ1]; simpl in Hm; subst σ1; [apply Hk|done..].
Qed.

Lemma frames_bind {A B} (m : Py A) (k : A → Py B) :
  frames m → (∀ a, frames (k a)) → frames (m ≫= k).
Proof.
  intros Hm Hk σ. rewrite bind_eq. destruct (Hm σ) as (Hh & Hn & Hg).
  destruct (m σ) as [[a|e|] σ1]; simpl in *; [|done..].
  destruct (Hk a σ1) as (Hh' & Hn' & Hg'). repeat split; congruence.
Qed.

Lemma silent_ret {A} (a : A) : silent (mret a : Py A).
Proof. by intros σ. Qed.

Lemma silent_raise {A} (e : PyExc) : silent (raise e : Py A).
Proof. by intros σ. Qed.

Lemma silent_lift {A} (r : result A) : silent (lift r).
Proof. by intros σ. Qed.

Lemma silent_get_baseuri (self : loc) : silent (get_baseuri self).
Proof.
  intros σ. unfold get_baseuri.
  destruct (heap σ !! self) as [[? [?|]]|]; done.
Qed.

Lemma silent_get_session (self : loc) : silent (get_session self).
Proof.
  intros σ. unfold get_session.
  destruct (heap σ !! self) as [[[?|] ?]|]; done.
Qed.

Lemma silent_load_global (name : string) : silent (load_global name).
Proof. intros σ. unfold load_global. by destruct (globals σ !! name). Qed.

Lemma silent_clone_data (name : option string) : silent (clone_data name).
Proof. intros σ. by rewrite clone_data_eq. Qed.

Lemma silent_json_body_of (r : Response) : silent (json_body_of r).
Proof.
  unfold json_body_of. apply silent_bind; intros; apply silent_lift.
Qed.

Lemma silent_finish (extracts : bool) (r : Response) :
  silent (finish extracts r).
Proof.
  destruct extracts; [apply silent_json_body_of | apply silent_ret].
Qed.

Section Frames.

Variable server : list Exchange → Reply.

Lemma frames_Session_request (s : SessionRef) (m u : string)
    (d : option string) :
  frames (Session_request server s m u d).
Proof. intros σ. unfold Session_request. by destruct (server _). Qed.

Lemma frames_talk_to_host (self : loc) (m u : string) (d : option string) :
  frames (_talk_to_host server self m u d).
Proof.
  unfold _talk_to_host.
  apply frames_bind; [apply silent_frames, silent_get_session|intros s].
  apply frames_bind; [apply frames_Session_request|intros r].
  apply silent_frames, silent_ret.
Qed.

End Frames.

Create HintDb py.

#[local] Hint Resolve silent_ret silent_raise silent_lift silent_get_baseuri
  silent_get_session silent_load_global silent_clone_data silent_json_body_of
  silent_finish : py.
#[local] Hint Resolve frames_Session_request frames_talk_to_host : py.

(** Splits a goal [frames m] along the binds of [m]. *)
Ltac frames_tac :=
  repeat first
    [ apply frames_bind; [|intros ?]
    | progress cbv zeta
    | solve [auto with py]
    | solve [apply silent_frames; auto with py] ].

Lemma frames_call (server : list Exchange → Reply) (op : Op) (self : loc) :
  frames (call server op self).
Proof.
  destruct op; unfold call, list_notebooks, get_status_of_all_paragraphs,
    get_note_info, delete_note, clone_note, export_note, import_note,
    run_all_paragraph, stop_all_paragraph, clear_all_pargraph_results,
    create_paragraph, get_paragraph_info, get_paragraph_status,
    update_paragraph_config, delete_paragraph, run_paragraph_asynchronously,
    run_paragraph_synchronously, stop_paragraph; frames_tac.
Qed.

(** ** The methods on a constructed client *)

Section Constructed.

Variable server : list Exchange → Reply.
Variables (σ : State) (self : loc) (s : SessionRef) (b : string).
Hypothesis Hself : constructed σ self s b.

Lemma get_baseuri_eq : get_baseuri self σ = (Return b, σ).
Proof. unfold get_baseuri. by rewrite Hself. Qed.

Lemma get_session_eq : get_session self σ = (Return s, σ).
Proof. unfold get_session. by rewrite Hself. Qed.

Lemma talk_to_host_eq (m u : string) (d : option string) :
  _talk_to_host server self m u d σ = Session_request server s m u d σ.
Proof.
  unfold _talk_to_host. rewrite bind_eq, get_session_eq, bind_eq.
  destruct (Session_request server s m u d σ) as [[r|e|] σ']; reflexivity.
Qed.

End Constructed.

Ltac py_run Hself :=
  unfold mbind, Py_bind, lift;
  repeat first
    [ rewrite (get_baseuri_eq _ _ _ _ Hself)
    | rewrite (get_session_eq _ _ _ _ Hself)
    | rewrite (talk_to_host_eq _ _ _ _ _ Hself)
    | rewrite format_note
    | rewrite format_job
    | rewrite format_job_paragraph
    | rewrite format_run_paragraph
    | rewrite clone_data_eq
    | progress cbv beta iota zeta ].

(** Every implemented operation is one request followed by what the table
    says about the body. *)
Lemma call_implemented (server : list Exchange → Reply) (op : Op) (row : Row)
    (σ : State) (self : loc) (s : SessionRef) (b : string) :
  implemented (method_of op) = true →
  operation_table (method_of op) = Some row →
  constructed σ self s b →
  call server op self σ
  = (r ← Session_request server s (row_verb row)
           (b +:+ row_path row (noteid_of op) (paragraphid_of op))
           (request_data op);
     finish (row_extracts_body row) r) σ.
Proof.
  intros Himpl Hrow Hself.
  destruct op; try discriminate Himpl; simpl in Hrow;
    injection Hrow as <-; simpl;
    unfold list_notebooks, get_status_of_all_paragraphs, get_note_info,
      delete_note, clone_note, run_all_paragraph, stop_all_paragraph,
      get_paragraph_status, run_paragraph_asynchronously,
      run_paragraph_synchronously, stop_paragraph, finish;
    py_run Hself.
  all: try reflexivity.
  all: destruct (Session_request _ _ _ _ _ _) as [[r|e|] σ']; reflexivity.
Qed.

(** ** Construction *)

Section Construction.

Variable server : list Exchange → Reply.

Lemma ZeppelinClient_eq (host : string) (port : Z)
    (auth : option (string * string)) (pattern : string) (σ : State) :
  ZeppelinClient server host port auth pattern σ
  = let self := fresh (dom (heap σ)) in
    match str_format pattern (init_kwargs host port) with
    | Return b =>
        match auth with
        | Some (username, password) =>
            (_ ← _login server self username password; mret self)
              (after_init σ self (Some b))
        | None => (Return self, after_init σ self (Some b))
        end
    | Raise e => (Raise e, after_init σ self None)
    | Unmodelled => (Unmodelled, after_init σ self None)
    end.
Proof.
  unfold ZeppelinClient, __init__, new_instance, Session_new, set_session,
    set_baseuri, lift, init_kwargs, after_init, mbind, Py_bind, mret, Py_ret.
  cbn -[str_format]. rewrite lookup_insert_eq. cbn -[str_format].
  rewrite insert_insert_eq.
  destruct (str_format pattern _) as [b|e|]; try reflexivity.
  rewrite lookup_insert_eq. cbn. rewrite insert_insert_eq.
  destruct auth as [[username password]|]; reflexivity.
Qed.

Lemma constructed_after_init (σ : State) (self : loc) (b : string) :
  constructed (after_init σ self (Some b)) self (next_session σ) b.
Proof. unfold constructed, after_init. cbn. apply lookup_insert_eq. Qed.

Lemma login_eq (σ : State) (self : loc) (s : SessionRef) (b u p : string) :
  constructed σ self s b →
  _login server self u p σ
  = match str_format (b +:+ "/login?userName={username}&password={password}")
            (login_kwargs u p) with
    | Return uri =>
        let log := net σ ++ [(s, mkRequest "POST" uri None)] in
        match server log with
        | Responded r =>
            (if Response_ok r then Return PyNone
             else Raise (Exception_
                           (reason r +:+ ": cannot login to zeppelin : "
                            +:+ uri)),
             set_net log σ)
        | TransportError => (Raise ConnectionError, set_net log σ)
        end
    | Raise e => (Raise e, σ)
    | Unmodelled => (Unmodelled, σ)
    end.
Proof.
  intros Hself. unfold _login, login_kwargs.
  rewrite bind_eq, (get_baseuri_eq _ _ _ _ Hself), bind_eq. unfold lift.
  destruct (str_format _ _) as [uri|e|]; try reflexivity.
  rewrite bind_eq, (get_session_eq _ _ _ _ Hself), bind_eq.
  unfold Session_post, Session_request. cbn zeta.
  destruct (server _) as [r|]; [|reflexivity].
  destruct (Response_ok r); reflexivity.
Qed.

End Construction.

(** ** Decimal numerals hold no brace *)

Lemma brace_free_digit (x : N) (s : string) :
  brace_free (String (pretty_N_char x) s) = brace_free s.
Proof. unfold pretty_N_char. by repeat case_match. Qed.

Lemma brace_free_pretty_N_go (x : N) (s : string) :
  brace_free s = true → brace_free (pretty_N_go x s) = true.
Proof.
  revert s. induction (N.lt_wf_0 x) as [x _ IH]; intros s Hs.
  destruct (decide (x = 0)%N) as [->|Hx]; [by rewrite pretty_N_go_0|].
  rewrite pretty_N_go_step by lia.
  apply IH; [apply N.div_lt; lia|]. by rewrite brace_free_digit.
Qed.

Lemma brace_free_pretty (z : Z) : brace_free (pretty z) = true.
Proof.
  assert (∀ x : N, brace_free (pretty x) = true) as HN.
  { intros x. unfold pretty, pretty_N. case_decide; [done|].
    by apply brace_free_pretty_N_go. }
  destruct z as [|x|x]; [done|apply (HN (Npos x))|].
  unfold pretty, pretty_Z. apply brace_free_app; [done|apply (HN (Npos x))].
Qed.

(** With a brace-free host, the base URI built from a template of
    brace-free text and placeholders holds no brace. *)
Lemma brace_free_substitute (host : string) (port : Z) (segs : list Segment) :
  brace_free host = true →
  Forall (λ seg, literal_ok seg = true) segs →
  brace_free (substitute host port segs) = true.
Proof.
  intros Hhost. induction 1 as [|seg segs Hseg _ IH]; [done|].
  cbn [substitute]. apply brace_free_app; [|done].
  destruct seg; [done|done|apply brace_free_pretty].
Qed.

Lemma ZeppelinClient_returns (server : list Exchange → Reply) (host : string)
    (port : Z) (auth : option (string * string)) (pattern : string)
    (σ σ' : State) (self : loc) :
  ZeppelinClient server host port auth pattern σ = (Return self, σ') →
  self = fresh (dom (heap σ))
  ∧ ∃ b, str_format pattern (init_kwargs host port) = Return b
         ∧ heap σ' = <[self := {| session := Some (next_session σ);
                                  baseuri := Some b |}]> (heap σ).
Proof.
  rewrite ZeppelinClient_eq. cbv zeta.
  destruct (str_format pattern _) as [b|e|]; [|discriminate..].
  destruct auth as [[u p]|].
  - rewrite bind_eq, (login_eq _ _ _ _ _ _ _ (constructed_after_init _ _ _)).
    destruct (str_format _ _) as [uri|e|]; [|discriminate..]. cbv zeta.
    destruct (server _) as [r|]; [|discriminate].
    destruct (Response_ok r); [|discriminate].
    intros [= <- <-]. eauto.
  - intros [= <- <-]. eauto.
Qed.

Lemma fresh_unallocated (σ : State) : heap σ !! fresh (dom (heap σ)) = None.
Proof. apply not_elem_of_dom, is_fresh. Qed.

Lemma extracts_implemented (m : Method) (row : Row) :
  operation_table m = Some row → row_extracts_body row = true →
  implemented m = true.
Proof.
  destruct m; cbn; intros Hrow He; try discriminate; try reflexivity;
    injection Hrow as <-; discriminate He.
Qed.

Lemma implemented_row (m : Method) :
  implemented m = true → ∃ row, operation_table m = Some row.
Proof. destruct m; cbn; intros; try discriminate; eauto. Qed.

(** ** The claims *)

(** C1. Every implemented public operation, called on a constructed
    client, issues exactly one request: the log of calls grows by one
    entry, sent over the client's session, whose verb and path are those of
    the operation's row in the table (DELETE for clone note). *)
Theorem one_request_per_operation (server : list Exchange → Reply) (op : Op)
    (σ : State) (self : loc) (s : SessionRef) (b : string) :
  implemented (method_of op) = true →
  constructed σ self s b →
  ∃ row,
    operation_table (method_of op) = Some row
    ∧ net (call server op self σ).2
      = net σ ++ [(s, mkRequest (row_verb row)
                        (b +:+ row_path row (noteid_of op) (paragraphid_of op))
                        (request_data op))].
Proof.
  intros Himpl Hself. destruct (implemented_row _ Himpl) as [row Hrow].
  exists row. split; [exact Hrow|].
  rewrite (call_implemented _ _ _ _ _ _ _ Himpl Hrow Hself), bind_eq.
  unfold Session_request. cbv zeta.
  destruct (server _) as [r|]; [|reflexivity].
  by rewrite silent_finish.
Qed.

(** C2, as amended.  For every operation whose row says it extracts the
    body, called on a constructed client: when the response to its request
    decodes to a JSON object, the operation returns the value at key [body]
    if the object has one, and raises [KeyError] for [body] otherwise. *)
Theorem body_extracted_or_key_error (server : list Exchange → Reply) (op : Op)
    (row : Row) (σ : State) (self : loc) (s : SessionRef) (b : string)
    (r : Response) (d : gmap string pyvalue) :
  operation_table (method_of op) = Some row →
  row_extracts_body row = true →
  constructed σ self s b →
  server (net σ ++ [(s, mkRequest (row_verb row)
                          (b +:+ row_path row (noteid_of op)
                                   (paragraphid_of op))
                          (request_data op))]) = Responded r →
  json_body r = Some (PyDict d) →
  (call server op self σ).1
  = match d !! "body" with
    | Some v => Return v
    | None => Raise (KeyError "body")
    end.
Proof.
  intros Hrow Hext Hself Hreply Hjson.
  rewrite (call_implemented _ _ _ _ _ _ _
             (extracts_implemented _ _ Hrow Hext) Hrow Hself), bind_eq.
  unfold Session_request. cbv zeta. rewrite Hreply, Hext.
  unfold finish, json_body_of, Response_json. rewrite bind_eq.
  unfold lift. rewrite Hjson. cbn. by destruct (d !! "body").
Qed.

(** C3, as amended.  When the base URI holds no brace, construction with a
    credentials pair issues exactly one request, the POST of the login URI
    built from the base URI, the user name and the password, over the new
    session.  If the response has a status from 400 to 599, construction
    raises an exception whose message is the reason phrase, then
    ": cannot login to zeppelin : ", then the URI; if the status is below
    400, construction returns the client. *)
Theorem login_once_on_construction (server : list Exchange → Reply)
    (host : string) (port : Z) (username password pattern : string)
    (σ : State) (b : string) :
  str_format pattern (init_kwargs host port) = Return b →
  brace_free b = true →
  net (ZeppelinClient server host port (Some (username, password)) pattern σ).2
  = net σ ++ [(next_session σ,
               mkRequest "POST" (login_uri b username password) None)]
  ∧ (∀ r,
       server (net σ ++ [(next_session σ,
                          mkRequest "POST" (login_uri b username password)
                            None)]) = Responded r →
       (400 ≤ status_code r < 600 →
        (ZeppelinClient server host port (Some (username, password))
           pattern σ).1
        = Raise (Exception_ (reason r +:+ ": cannot login to zeppelin : "
                             +:+ login_uri b username password)))
       ∧ (status_code r < 400 →
          ∃ self,
            (ZeppelinClient server host port (Some (username, password))
               pattern σ).1 = Return self
            ∧ baseuri_of
                (ZeppelinClient server host port (Some (username, password))
                   pattern σ).2 self = Some b)).
Proof.
  intros Hfmt Hb. rewrite ZeppelinClient_eq. cbv zeta. rewrite Hfmt.
  rewrite bind_eq, (login_eq _ _ _ _ _ _ _ (constructed_after_init _ _ _)).
  rewrite (format_login _ _ _ Hb). cbv zeta.
  change (net (after_init σ (fresh (dom (heap σ))) (Some b))) with (net σ).
  split.
  - destruct (server _) as [r|]; [|reflexivity].
    destruct (Response_ok r); reflexivity.
  - intros r ->. unfold Response_ok. split.
    + intros [Hlo Hhi].
      apply Z.leb_le in Hlo. apply Z.ltb_lt in Hhi. by rewrite Hlo, Hhi.
    + intros Hlt.
      assert ((400 <=? status_code r) = false) as -> by (apply Z.leb_gt; lia).
      cbn. eexists; split; [reflexivity|].
      unfold baseuri_of. cbn. by rewrite lookup_insert_eq.
Qed.

(** C4. [clear_all_pargraph_results] uses the name [noteid], which the
    method does not bind and the module does not define.  On a constructed
    client: with the name unbound the call raises [NameError] and issues no
    request; a request is issued only if the name resolves, and when it
    resolves to a string the request is the PUT of the table's row. *)
Theorem clear_all_unbound_noteid (server : list Exchange → Reply) (σ : State)
    (self : loc) (s : SessionRef) (b : string) :
  constructed σ self s b →
  module_globals !! "noteid" = None
  ∧ (globals σ !! "noteid" = None →
     clear_all_pargraph_results server self σ
     = (Raise (NameError "noteid"), σ))
  ∧ (net (clear_all_pargraph_results server self σ).2 ≠ net σ →
     is_Some (globals σ !! "noteid"))
  ∧ (∀ v, globals σ !! "noteid" = Some (PyStr v) →
     ∃ row,
       operation_table m_clear_all_pargraph_results = Some row
       ∧ net (clear_all_pargraph_results server self σ).2
         = net σ ++ [(s, mkRequest (row_verb row) (b +:+ row_path row v "")
                           None)]).
Proof.
  intros Hself.
  assert (∀ o, globals σ !! "noteid" = o →
            clear_all_pargraph_results server self σ
            = match o with
              | Some v =>
                  (p ← lift (str_format "/notebook/job/{noteid}/clear"
                               [("noteid", v)]);
                   _ ← _talk_to_host server self "PUT" (b +:+ p) None;
                   mret PyNone) σ
              | None => (Raise (NameError "noteid"), σ)
              end) as Heq.
  { intros o Ho. unfold clear_all_pargraph_results.
    rewrite bind_eq, (get_baseuri_eq _ _ _ _ Hself), bind_eq.
    unfold load_global. rewrite Ho. by destruct o. }
  split; [reflexivity|]. split; [intros Hnone; exact (Heq None Hnone)|]. split.
  - intros Hnet. destruct (decide (is_Some (globals σ !! "noteid")))
      as [|Hg%eq_None_not_Some]; [done|].
    by rewrite (Heq None Hg) in Hnet.
  - intros v Hv. eexists; split; [reflexivity|].
    rewrite (Heq _ Hv), bind_eq. unfold lift. rewrite format_clear.
    rewrite bind_eq, (talk_to_host_eq _ _ _ _ _ Hself).
    unfold Session_request. cbv zeta. by destruct (server _).
Qed.

(** C5. [_talk_to_host], on a constructed client, sends the request it is
    given over the client's session, once, and returns the response it
    gets as it is, whatever its status; the client object is not touched. *)
Theorem talk_to_host_returns_raw_response (server : list Exchange → Reply)
    (σ : State) (self : loc) (s : SessionRef) (b : string)
    (method_ uri : string) (data_ : option string) :
  constructed σ self s b →
  net (_talk_to_host server self method_ uri data_ σ).2
  = net σ ++ [(s, mkRequest method_ uri data_)]
  ∧ heap (_talk_to_host server self method_ uri data_ σ).2 = heap σ
  ∧ ∀ r, server (net σ ++ [(s, mkRequest method_ uri data_)]) = Responded r →
         (_talk_to_host server self method_ uri data_ σ).1 = Return r.
Proof.
  intros Hself. rewrite (talk_to_host_eq _ _ _ _ _ Hself).
  unfold Session_request. cbv zeta. repeat split.
  - by destruct (server _).
  - by destruct (server _).
  - by intros r ->.
Qed.

(** C6. Every unimplemented operation raises [NotImplementedError] and
    leaves the state, the log of calls included, as it was. *)
Theorem unimplemented_raise_without_request (server : list Exchange → Reply)
    (op : Op) (self : loc) (σ : State) :
  unimplemented (method_of op) = true →
  call server op self σ = (Raise NotImplementedError, σ).
Proof. destruct op; cbn; intros; try discriminate; reflexivity. Qed.

(** C7. After construction the client's base URI is the template with
    every placeholder replaced by its value in one pass, the values not
    being scanned again: for the default template it is [http://], the
    host, a colon, the port in decimal and [/api], whatever the host and the
    port; and so it is for every template made of brace-free text and the
    two placeholders.  Without credentials construction always returns. *)
Theorem baseuri_is_template_substituted (server : list Exchange → Reply)
    (host : string) (port : Z) (auth : option (string * string)) (σ : State) :
  (∀ self σ',
     ZeppelinClient server host port auth BASEURI_PATTERN σ = (Return self, σ') →
     baseuri_of σ' self
     = Some ("http://" +:+ host +:+ ":" +:+ pretty port +:+ "/api"))
  ∧ (∀ segs self σ',
       Forall (λ seg, literal_ok seg = true) segs →
       ZeppelinClient server host port auth (template_of segs) σ
       = (Return self, σ') →
       baseuri_of σ' self = Some (substitute host port segs))
  ∧ (∀ segs,
       Forall (λ seg, literal_ok seg = true) segs →
       ∃ self σ',
         ZeppelinClient server host port None (template_of segs) σ
         = (Return self, σ')
         ∧ baseuri_of σ' self = Some (substitute host port segs)).
Proof.
  assert (∀ segs self σ',
            Forall (λ seg, literal_ok seg = true) segs →
            ZeppelinClient server host port auth (template_of segs) σ
            = (Return self, σ') →
            baseuri_of σ' self = Some (substitute host port segs)) as Hgen.
  { intros segs self σ' Hsegs Hret.
    apply ZeppelinClient_returns in Hret as (_ & b & Hb & Hheap).
    rewrite (str_format_template _ _ _ Hsegs) in Hb. injection Hb as <-.
    unfold baseuri_of. rewrite Hheap. by rewrite lookup_insert_eq. }
  split; [|split; [exact Hgen|]].
  - intros self σ' Hret.
    assert (Forall (λ seg, literal_ok seg = true) default_segments) as Hdef
      by (repeat constructor).
    rewrite (Hgen default_segments self σ' Hdef Hret). reflexivity.
  - intros segs Hsegs. rewrite ZeppelinClient_eq. cbv zeta.
    rewrite (str_format_template _ _ _ Hsegs).
    eexists _, _. split; [reflexivity|].
    unfold baseuri_of. cbn. by rewrite lookup_insert_eq.
Qed.

(** C8. Construction without credentials issues no request at all: the
    log of calls is as before, for every host, port and template. *)
Theorem no_credentials_no_request (server : list Exchange → Reply)
    (host : string) (port : Z) (pattern : string) (σ : State) :
  net (ZeppelinClient server host port None pattern σ).2 = net σ.
Proof.
  rewrite ZeppelinClient_eq. cbv zeta.
  by destruct (str_format pattern _).
Qed.

(** C9. [stop_paragraph], on a constructed client, issues one DELETE of
    [/notebook/job/{noteid}/{paragraphid}] without a request body, returns
    [None] when the server responds, and does the same for every
    payload. *)
Theorem stop_paragraph_ignores_payload (server : list Exchange → Reply)
    (σ : State) (self : loc) (s : SessionRef) (b noteid paragraphid : string)
    (payload : pyvalue) :
  constructed σ self s b →
  net (stop_paragraph server self noteid paragraphid payload σ).2
  = net σ ++ [(s, mkRequest "DELETE"
                    (b +:+ "/notebook/job/" +:+ noteid +:+ "/" +:+ paragraphid)
                    None)]
  ∧ (∀ r,
       server (net σ ++ [(s, mkRequest "DELETE"
                               (b +:+ "/notebook/job/" +:+ noteid +:+ "/"
                                +:+ paragraphid) None)]) = Responded r →
       (stop_paragraph server self noteid paragraphid payload σ).1
       = Return PyNone)
  ∧ (∀ payload',
       stop_paragraph server self noteid paragraphid payload' σ
       = stop_paragraph server self noteid paragraphid payload σ).
Proof.
  intros Hself. split; [|split; [|reflexivity]].
  - unfold stop_paragraph. py_run Hself.
    unfold Session_request. by destruct (server _).
  - intros r Hr. unfold stop_paragraph. py_run Hself.
    unfold Session_request. by rewrite Hr.
Qed.

(** C10. No public operation changes a client object: after any call the
    heap of instances is as before, so the base URI and the session of the
    client are the ones it had; no session is created and no global is
    rebound.  Construction is what assigns the two attributes: the instance
    is new, its session is the one just created and its base URI the
    formatted template. *)
Theorem operations_preserve_client (server : list Exchange → Reply) (op : Op)
    (self : loc) (σ : State) :
  (heap (call server op self σ).2 = heap σ
   ∧ next_session (call server op self σ).2 = next_session σ
   ∧ globals (call server op self σ).2 = globals σ)
  ∧ baseuri_of (call server op self σ).2 self = baseuri_of σ self
  ∧ session_of (call server op self σ).2 self = session_of σ self
  ∧ (∀ host port auth pattern new σ',
       ZeppelinClient server host port auth pattern σ = (Return new, σ') →
       heap σ !! new = None
       ∧ session_of σ' new = Some (next_session σ)
       ∧ ∃ b, str_format pattern (init_kwargs host port) = Return b
              ∧ baseuri_of σ' new = Some b).
Proof.
  pose proof (frames_call server op self σ) as Hframe.
  split; [exact Hframe|]. destruct Hframe as (Hheap & _ & _).
  unfold baseuri_of, session_of. rewrite Hheap.
  split; [reflexivity|]. split; [reflexivity|].
  intros host port auth pattern new σ' Hret.
  apply ZeppelinClient_returns in Hret as (-> & b & Hb & ->).
  split; [apply fresh_unallocated|].
  rewrite lookup_insert_eq. cbn. eauto.
Qed.

(** C2, as stated, fails.  A reply that decodes to the empty list is a JSON
    response without a field [body], and [list_notebooks] then raises
    [TypeError], from the subscript, which is not a key-lookup error; the
    same holds for a reply that decodes to null. *)
Lemma body_lookup_counterexample :
  (json_body list_response = Some (PyList [])
   ∧ (call (always list_response) ListNotebooks 1%positive example_state).1
     = Raise TypeError
   ∧ (call (always list_response) ListNotebooks 1%positive example_state).1
     ≠ Raise (KeyError "body"))
  ∧ (json_body null_response = Some PyNone
     ∧ (call (always null_response) (GetNoteInfo "2A94M5J1Z") 1%positive
          example_state).1
       = Raise TypeError).
Proof.
  split; [split; [reflexivity|split]|split].
  - vm_compute. reflexivity.
  - vm_compute. discriminate.
  - reflexivity.
  - vm_compute. reflexivity.
Qed.

(** C3, as stated, fails.  A login answered with status 304 is not in the
    2xx range, and construction returns the client instead of raising;
    and with the host [}] the default template gives a base URI with a
    brace, the login URI does not format, and construction raises
    [ValueError] without any request. *)
Lemma login_non_2xx_counterexample :
  (¬ (200 ≤ status_code not_modified < 300)
   ∧ (ZeppelinClient (always not_modified) "localhost" 6080
        (Some ("admin", "secret")) BASEURI_PATTERN initial_state).1
     = Return 1%positive)
  ∧ ((ZeppelinClient (always unauthorized) "}" 6080
        (Some ("admin", "secret")) BASEURI_PATTERN initial_state).1
     = Raise ValueError
     ∧ net (ZeppelinClient (always unauthorized) "}" 6080
              (Some ("admin", "secret")) BASEURI_PATTERN initial_state).2
       = []).
Proof.
  split; split.
  - cbn. lia.
  - vm_compute. reflexivity.
  - vm_compute. reflexivity.
  - vm_compute. reflexivity.
Qed.

(** ** Around the claims *)

(** A response that is JSON but not an object has no field to look up:
    the subscript raises [TypeError]; a response that is not JSON makes
    [json()] raise [ValueError]. *)
Lemma body_of_other_responses (server : list Exchange → Reply) (op : Op)
    (row : Row) (σ : State) (self : loc) (s : SessionRef) (b : string)
    (r : Response) :
  operation_table (method_of op) = Some row →
  row_extracts_body row = true →
  constructed σ self s b →
  server (net σ ++ [(s, mkRequest (row_verb row)
                          (b +:+ row_path row (noteid_of op)
                                   (paragraphid_of op))
                          (request_data op))]) = Responded r →
  (call server op self σ).1
  = match json_body r with
    | Some v => getitem v "body"
    | None => Raise ValueError
    end.
Proof.
  intros Hrow Hext Hself Hreply.
  rewrite (call_implemented _ _ _ _ _ _ _
             (extracts_implemented _ _ Hrow Hext) Hrow Hself), bind_eq.
  unfold Session_request. cbv zeta. rewrite Hreply, Hext.
  unfold finish, json_body_of, Response_json. rewrite bind_eq. unfold lift.
  by destruct (json_body r).
Qed.

(** A transport error propagates, after the one request was attempted. *)
Lemma transport_error_propagates (server : list Exchange → Reply) (op : Op)
    (row : Row) (σ : State) (self : loc) (s : SessionRef) (b : string) :
  implemented (method_of op) = true →
  operation_table (method_of op) = Some row →
  constructed σ self s b →
  server (net σ ++ [(s, mkRequest (row_verb row)
                          (b +:+ row_path row (noteid_of op)
                                   (paragraphid_of op))
                          (request_data op))]) = TransportError →
  (call server op self σ).1 = Raise ConnectionError.
Proof.
  intros Himpl Hrow Hself Hreply.
  rewrite (call_implemented _ _ _ _ _ _ _ Himpl Hrow Hself), bind_eq.
  unfold Session_request. cbv zeta. by rewrite Hreply.
Qed.

(** With the default template and a host without braces, the hypotheses
    of the login theorem hold for every port. *)
Lemma default_baseuri_brace_free (host : string) (port : Z) :
  brace_free host = true →
  str_format BASEURI_PATTERN (init_kwargs host port)
  = Return (substitute host port default_segments)
  ∧ brace_free (substitute host port default_segments) = true.
Proof.
  intros Hhost.
  assert (Forall (λ seg, literal_ok seg = true) default_segments) as Hdef
    by (repeat constructor).
  split.
  - exact (str_format_template host port default_segments Hdef).
  - by apply brace_free_substitute.
Qed.

Example construct_default :
  ZeppelinClient (always notes_response) "localhost" 6080 None BASEURI_PATTERN
    initial_state = (Return 1%positive, example_state).
Proof. vm_compute. reflexivity. Qed.

Example list_notebooks_example :
  list_notebooks (always notes_response) 1%positive example_state
  = (Return notes_body,
     set_net [(0%nat, mkRequest "GET" "http://localhost:6080/api/notebook"
                        None)] example_state).
Proof. vm_compute. reflexivity. Qed.

Example clone_note_example :
  net (clone_note (always notes_response) 1%positive "2A94M5J1Z"
         (Some "copy") example_state).2
  = [(0%nat,
      mkRequest "DELETE" "http://localhost:6080/api/notebook/2A94M5J1Z"
        (Some ("{" +:+ dquote +:+ "name" +:+ dquote +:+ ":" +:+ dquote
               +:+ "copy" +:+ dquote +:+ "}")))].
Proof. vm_compute. reflexivity. Qed.

Example get_note_info_error_payload :
  (get_note_info (always server_error) 1%positive "2A94M5J1Z"
     example_state).1 = Raise (KeyError "body").
Proof. vm_compute. reflexivity. Qed.

Example format_escaped_braces :
  str_format "{{{host}}}" (init_kwargs "localhost" 6080) = Return "{localhost}".
Proof. vm_compute. reflexivity. Qed.

Example format_unknown_field :
  str_format "http://{server}:{port}" (init_kwargs "localhost" 6080)
  = Raise (KeyError "server").
Proof. vm_compute. reflexivity. Qed.

Example format_host_not_rescanned :
  str_format BASEURI_PATTERN (init_kwargs "{port}" 6080)
  = Return "http://{port}:6080/api".
Proof. vm_compute. reflexivity. Qed.

Example format_single_brace :
  str_format "http://{host}:{port}/api}" (init_kwargs "localhost" 6080)
  = Raise ValueError.
Proof. vm_compute. reflexivity. Qed.

Example login_uri_goes_astray :
  net (ZeppelinClient (always notes_response) "{username}" 6080
         (Some ("admin", "secret")) BASEURI_PATTERN initial_state).2
  = [(0%nat,
      mkRequest "POST"
        "http://admin:6080/api/login?userName=admin&password=secret" None)].
Proof. vm_compute. reflexivity. Qed.

(** ** The theorems at concrete inputs *)

Lemma one_request_per_operation_witness :
  implemented (method_of (CloneNote "2A94M5J1Z" (Some "copy"))) = true
  ∧ constructed example_state 1%positive 0%nat example_baseuri
  ∧ ∃ row,
      operation_table m_clone_note = Some row
      ∧ net (call (always notes_response) (CloneNote "2A94M5J1Z" (Some "copy"))
               1%positive example_state).2
        = [(0%nat,
            mkRequest (row_verb row)
              (example_baseuri +:+ row_path row "2A94M5J1Z" "")
              (clone_body (Some "copy")))].
Proof.
  split; [reflexivity|]. split; [reflexivity|].
  exact (one_request_per_operation (always notes_response)
           (CloneNote "2A94M5J1Z" (Some "copy")) example_state 1%positive
           0%nat example_baseuri eq_refl eq_refl).
Defined.

Lemma body_extracted_or_key_error_witness :
  (call (always notes_response) ListNotebooks 1%positive example_state).1
  = Return notes_body
  ∧ (call (always server_error) (GetNoteInfo "2A94M5J1Z") 1%positive
       example_state).1
    = Raise (KeyError "body").
Proof.
  split.
  - exact (body_extracted_or_key_error (always notes_response) ListNotebooks
             (mkRow "GET" (λ _ _, "/notebook") true) example_state 1%positive
             0%nat example_baseuri notes_response notes_json
             eq_refl eq_refl eq_refl eq_refl eq_refl).
  - exact (body_extracted_or_key_error (always server_error)
             (GetNoteInfo "2A94M5J1Z")
             (mkRow "GET" (λ n _, "/notebook/" +:+ n) true) example_state
             1%positive 0%nat example_baseuri server_error error_json
             eq_refl eq_refl eq_refl eq_refl eq_refl).
Defined.

Lemma login_once_on_construction_witness :
  str_format BASEURI_PATTERN (init_kwargs "localhost" 6080)
  = Return example_baseuri
  ∧ brace_free example_baseuri = true
  ∧ net (ZeppelinClient (always unauthorized) "localhost" 6080
           (Some ("admin", "secret")) BASEURI_PATTERN initial_state).2
    = [(0%nat,
        mkRequest "POST"
          "http://localhost:6080/api/login?userName=admin&password=secret"
          None)]
  ∧ (ZeppelinClient (always unauthorized) "localhost" 6080
       (Some ("admin", "secret")) BASEURI_PATTERN initial_state).1
    = Raise (Exception_
               ("Unauthorized: cannot login to zeppelin : "
                +:+ "http://localhost:6080/api/login?userName=admin&password=secret")).
Proof.
  split; [reflexivity|]. split; [reflexivity|].
  destruct (login_once_on_construction (always unauthorized) "localhost" 6080
              "admin" "secret" BASEURI_PATTERN initial_state example_baseuri
              eq_refl eq_refl) as [Hnet Hreply].
  split; [exact Hnet|].
  destruct (Hreply unauthorized eq_refl) as [Hfail _].
  apply Hfail. cbn. lia.
Defined.

Lemma clear_all_unbound_noteid_witness :
  constructed example_state 1%positive 0%nat example_baseuri
  ∧ globals example_state !! "noteid" = None
  ∧ clear_all_pargraph_results (always notes_response) 1%positive
      example_state
    = (Raise (NameError "noteid"), example_state).
Proof.
  split; [reflexivity|]. split; [reflexivity|].
  destruct (clear_all_unbound_noteid (always notes_response) example_state
              1%positive 0%nat example_baseuri eq_refl)
    as (_ & Hunbound & _).
  exact (Hunbound eq_refl).
Defined.

Lemma talk_to_host_returns_raw_response_witness :
  constructed example_state 1%positive 0%nat example_baseuri
  ∧ (_talk_to_host (always server_error) 1%positive "PUT"
       "http://localhost:6080/api/notebook/job/2A94M5J1Z/clear" None
       example_state).1
    = Return server_error.
Proof.
  split; [reflexivity|].
  destruct (talk_to_host_returns_raw_response (always server_error)
              example_state 1%positive 0%nat example_baseuri "PUT"
              "http://localhost:6080/api/notebook/job/2A94M5J1Z/clear" None
              eq_refl) as (_ & _ & Hraw).
  exact (Hraw server_error eq_refl).
Defined.

Lemma unimplemented_raise_without_request_witness :
  unimplemented (method_of (ExportNote "2A94M5J1Z")) = true
  ∧ call (always notes_response) (ExportNote "2A94M5J1Z") 1%positive
      example_state
    = (Raise NotImplementedError, example_state).
Proof.
  split; [reflexivity|].
  exact (unimplemented_raise_without_request (always notes_response)
           (ExportNote "2A94M5J1Z") 1%positive example_state eq_refl).
Defined.

Lemma baseuri_is_template_substituted_witness :
  baseuri_of
    (ZeppelinClient (always notes_response) "zeppelin.example.org" 8080 None
       BASEURI_PATTERN initial_state).2 1%positive
  = Some "http://zeppelin.example.org:8080/api".
Proof.
  destruct (baseuri_is_template_substituted (always notes_response)
              "zeppelin.example.org" 8080 None initial_state)
    as (Hdefault & _ & _).
  exact (Hdefault 1%positive
           (ZeppelinClient (always notes_response) "zeppelin.example.org" 8080
              None BASEURI_PATTERN initial_state).2 eq_refl).
Defined.

Lemma stop_paragraph_ignores_payload_witness :
  constructed example_state 1%positive 0%nat example_baseuri
  ∧ stop_paragraph (always notes_response) 1%positive "2A94M5J1Z"
      "20151121-212654_766735423" (PyStr "ignored") example_state
    = (Return PyNone,
       set_net
         [(0%nat,
           mkRequest "DELETE"
             "http://localhost:6080/api/notebook/job/2A94M5J1Z/20151121-212654_766735423"
             None)] example_state).
Proof.
  split; [reflexivity|].
  destruct (stop_paragraph_ignores_payload (always notes_response)
              example_state 1%positive 0%nat example_baseuri "2A94M5J1Z"
              "20151121-212654_766735423" PyNone eq_refl)
    as (_ & _ & Hsame).
  rewrite (Hsame (PyStr "ignored")). reflexivity.
Defined.

Lemma operations_preserve_client_witness :
  baseuri_of
    (call (always server_error) (RunAllParagraph "2A94M5J1Z") 1%positive
       example_state).2 1%positive
  = Some example_baseuri
  ∧ heap initial_state !! 1%positive = None.
Proof.
  destruct (operations_preserve_client (always server_error)
              (RunAllParagraph "2A94M5J1Z") 1%positive example_state)
    as (_ & Hbase & _).
  split; [rewrite Hbase; reflexivity|].
  destruct (operations_preserve_client (always server_error)
              (RunAllParagraph "2A94M5J1Z") 1%positive initial_state)
    as (_ & _ & _ & Hnew).
  exact (proj1 (Hnew "localhost" 6080 None BASEURI_PATTERN 1%positive
                  example_state eq_refl)).
Defined.

(** * Further properties of the client *)

(** ** One operation *)

Lemma request_of_row (b : string) (op : Op) (row : Row) :
  operation_table (method_of op) = Some row →
  request_of b op
  = Some (mkRequest (row_verb row)
            (b +:+ row_path row (noteid_of op) (paragraphid_of op))
            (request_data op)).
Proof. intros Hrow. unfold request_of. by rewrite Hrow. Qed.

(** An implemented operation in terms of [request_of]. *)
Lemma call_request (server : list Exchange → Reply) (op : Op) (σ : State)
    (self : loc) (s : SessionRef) (b : string) :
  implemented (method_of op) = true →
  constructed σ self s b →
  ∃ row req,
    operation_table (method_of op) = Some row
    ∧ request_of b op = Some req
    ∧ call server op self σ
      = (r ← Session_request server s (method req) (url req) (data req);
         finish (row_extracts_body row) r) σ.
Proof.
  intros Himpl Hself. destruct (implemented_row _ Himpl) as [row Hrow].
  eexists row, _. split; [exact Hrow|]. split; [by apply request_of_row|].
  by apply call_implemented.
Qed.

Lemma constructed_frames {A} (m : Py A) (σ : State) (self : loc)
    (s : SessionRef) (b : string) :
  frames m → constructed σ self s b → constructed (m σ).2 self s b.
Proof. intros Hm Hself. unfold constructed. by rewrite (proj1 (Hm σ)). Qed.

Lemma finish_result (extracts : bool) (r : Response) (σ : State) :
  (finish extracts r σ).1
  = if extracts then
      match json_body r with
      | Some v => getitem v "body"
      | None => Raise ValueError
      end
    else Return PyNone.
Proof.
  destruct extracts; [|reflexivity].
  unfold finish, json_body_of, Response_json. rewrite bind_eq. unfold lift.
  by destruct (json_body r).
Qed.

(** X1. There is no handler around the request: when the transport fails,
    every implemented operation raises the transport's exception, after
    the one attempt, which is in the log. *)
Theorem transport_failure_not_retried (server : list Exchange → Reply)
    (op : Op) (req : Request) (σ : State) (self : loc) (s : SessionRef)
    (b : string) :
  implemented (method_of op) = true →
  constructed σ self s b →
  request_of b op = Some req →
  server (net σ ++ [(s, req)]) = TransportError →
  call server op self σ
  = (Raise ConnectionError, set_net (net σ ++ [(s, req)]) σ).
Proof.
  intros Himpl Hself Hreq Hfail.
  destruct (call_request server op σ self s b Himpl Hself)
    as (row & req' & _ & Hreq' & ->).
  rewrite Hreq in Hreq'. injection Hreq' as <-.
  rewrite bind_eq. unfold Session_request. cbv zeta.
  destruct req as [m u d]. cbn [method url data]. by rewrite Hfail.
Qed.

(** X2. What a body-extracting operation does with a response that is
    not a JSON object: content that does not decode raises [ValueError],
    and a decoded list, string, number, boolean or null raises [TypeError]
    (not [KeyError]); the request has been sent in both cases. *)
Theorem body_of_non_object_response (server : list Exchange → Reply) (op : Op)
    (row : Row) (req : Request) (σ : State) (self : loc) (s : SessionRef)
    (b : string) (r : Response) :
  operation_table (method_of op) = Some row →
  row_extracts_body row = true →
  constructed σ self s b →
  request_of b op = Some req →
  server (net σ ++ [(s, req)]) = Responded r →
  (json_body r = None →
   call server op self σ
   = (Raise ValueError, set_net (net σ ++ [(s, req)]) σ))
  ∧ (∀ v, json_body r = Some v → json_non_object v = true →
     call server op self σ
     = (Raise TypeError, set_net (net σ ++ [(s, req)]) σ)).
Proof.
  intros Hrow Hext Hself Hreq Hreply.
  rewrite (request_of_row _ _ _ Hrow) in Hreq. injection Hreq as <-.
  rewrite (call_implemented _ _ _ _ _ _ _
             (extracts_implemented _ _ Hrow Hext) Hrow Hself), bind_eq.
  unfold Session_request. cbv zeta. cbn [method url data] in Hreply.
  rewrite Hreply, Hext.
  unfold finish, json_body_of, Response_json. rewrite bind_eq. unfold lift.
  split.
  - by intros ->.
  - intros v -> Hv. by destruct v.
Qed.

(** X3. An operation that does not extract the body returns [None]
    whenever the server responds: neither the status code nor the content
    of the response is looked at, so an error response goes unnoticed. *)
Theorem unchecked_operations_return_none (server : list Exchange → Reply)
    (op : Op) (row : Row) (req : Request) (σ : State) (self : loc)
    (s : SessionRef) (b : string) (r : Response) :
  implemented (method_of op) = true →
  operation_table (method_of op) = Some row →
  row_extracts_body row = false →
  constructed σ self s b →
  request_of b op = Some req →
  server (net σ ++ [(s, req)]) = Responded r →
  call server op self σ = (Return PyNone, set_net (net σ ++ [(s, req)]) σ).
Proof.
  intros Himpl Hrow Hext Hself Hreq Hreply.
  rewrite (request_of_row _ _ _ Hrow) in Hreq. injection Hreq as <-.
  rewrite (call_implemented _ _ _ _ _ _ _ Himpl Hrow Hself), bind_eq.
  unfold Session_request. cbv zeta. cbn [method url data] in Hreply.
  by rewrite Hreply, Hext.
Qed.

(** X4. The result of an implemented operation depends on the response
    through its decoded content only: against two servers whose responses
    to the request decode alike, whatever their status codes and reason
    phrases, the operation gives the same result. *)
Theorem status_never_inspected (server1 server2 : list Exchange → Reply)
    (op : Op) (req : Request) (σ : State) (self : loc) (s : SessionRef)
    (b : string) (r1 r2 : Response) :
  implemented (method_of op) = true →
  constructed σ self s b →
  request_of b op = Some req →
  server1 (net σ ++ [(s, req)]) = Responded r1 →
  server2 (net σ ++ [(s, req)]) = Responded r2 →
  json_body r1 = json_body r2 →
  call server1 op self σ = call server2 op self σ.
Proof.
  intros Himpl Hself Hreq H1 H2 Hjson.
  destruct (implemented_row _ Himpl) as [row Hrow].
  rewrite (request_of_row _ _ _ Hrow) in Hreq. injection Hreq as <-.
  rewrite !(call_implemented _ _ _ _ _ _ _ Himpl Hrow Hself), !bind_eq.
  unfold Session_request. cbv zeta. cbn [method url data] in H1, H2.
  rewrite H1, H2.
  apply injective_projections.
  - by rewrite !finish_result, Hjson.
  - by rewrite !silent_finish.
Qed.

(** ** Several operations *)

Lemma call_net (server : list Exchange → Reply) (op : Op) (req : Request)
    (σ : State) (self : loc) (s : SessionRef) (b : string) :
  implemented (method_of op) = true →
  constructed σ self s b →
  request_of b op = Some req →
  net (call server op self σ).2 = net σ ++ [(s, req)].
Proof.
  intros Himpl Hself Hreq.
  destruct (call_request server op σ self s b Himpl Hself)
    as (row & req' & _ & Hreq' & ->).
  rewrite Hreq in Hreq'. injection Hreq' as <-.
  rewrite bind_eq. unfold Session_request. cbv zeta.
  destruct req as [m u d]. cbn [method url data].
  destruct (server _) as [r|]; [|reflexivity].
  by rewrite silent_finish.
Qed.

Lemma implemented_request (b : string) (op : Op) :
  implemented (method_of op) = true → is_Some (request_of b op).
Proof.
  intros [row Hrow]%implemented_row. rewrite (request_of_row _ _ _ Hrow).
  eauto.
Qed.

(** X5. Calls compose.  A client stays as constructed through any
    sequence of public operations, whatever they return or raise, and after
    a sequence of implemented operations the log has grown by exactly their
    requests, one per operation, in the order of the calls and all over the
    client's one session. *)
Theorem sequence_of_operations (server : list Exchange → Reply)
    (ops : list Op) (σ : State) (self : loc) (s : SessionRef) (b : string) :
  constructed σ self s b →
  constructed (run_ops server ops self σ) self s b
  ∧ (Forall (λ op, implemented (method_of op) = true) ops →
     net (run_ops server ops self σ)
     = net σ ++ ((λ req, (s, req)) <$> omap (request_of b) ops)
     ∧ length (net (run_ops server ops self σ))
       = (length (net σ) + length ops)%nat).
Proof.
  revert σ. induction ops as [|op ops IH]; intros σ Hself.
  - split; [exact Hself|]. intros _. cbn. by rewrite app_nil_r, Nat.add_0_r.
  - pose proof (constructed_frames _ _ _ _ _ (frames_call server op self)
                  Hself) as Hnext.
    destruct (IH _ Hnext) as [Hkeep Hlog]. split; [exact Hkeep|].
    intros Hall. apply Forall_cons in Hall as [Himpl Hall].
    destruct (Hlog Hall) as [Hnet Hlen].
    destruct (implemented_request b op Himpl) as [req Hreq].
    assert (omap (request_of b) (op :: ops)
            = req :: omap (request_of b) ops) as Homap
      by (cbn; by rewrite Hreq).
    cbn [run_ops]. split.
    + rewrite Hnet, Homap, (call_net _ _ _ _ _ _ _ Himpl Hself Hreq).
      rewrite fmap_cons. by rewrite <- app_assoc.
    + rewrite Hlen, (call_net _ _ _ _ _ _ _ Himpl Hself Hreq), length_app.
      cbn. lia.
Qed.

(** ** Any state *)

Lemma sends_silent {A} (self : loc) (m : Py A) :
  silent m → sends_at_most_once self m.
Proof. intros Hm σ. left. by rewrite (Hm σ). Qed.

Lemma sends_bind_silent_l {A B} (self : loc) (m : Py A) (k : A → Py B) :
  silent m → (∀ a, sends_at_most_once self (k a)) →
  sends_at_most_once self (m ≫= k).
Proof.
  intros Hm Hk σ. rewrite bind_eq. specialize (Hm σ).
  destruct (m σ) as [[a|e|] σ1]; cbn in Hm; subst σ1; [apply Hk|by left..].
Qed.

Lemma sends_bind_silent_r {A B} (self : loc) (m : Py A) (k : A → Py B) :
  sends_at_most_once self m → (∀ a, silent (k a)) →
  sends_at_most_once self (m ≫= k).
Proof.
  intros Hm Hk σ. rewrite bind_eq. specialize (Hm σ).
  destruct (m σ) as [[a|e|] σ1]; cbn in Hm; [|done..].
  by rewrite (Hk a σ1).
Qed.

Lemma sends_talk_to_host (server : list Exchange → Reply) (self : loc)
    (m u : string) (d : option string) :
  sends_at_most_once self (_talk_to_host server self m u d).
Proof.
  intros σ. unfold _talk_to_host. rewrite bind_eq. unfold get_session.
  unfold session_of.
  destruct (heap σ !! self) as [[[s|] b]|]; cbn; [|by left..].
  right. exists s, (mkRequest m u d). split; [reflexivity|].
  rewrite bind_eq. unfold Session_request. by destruct (server _).
Qed.

#[local] Hint Resolve sends_talk_to_host : py.

(** Splits a goal [sends_at_most_once self m] along the binds of [m]: the
    reads and the formatting come first and are silent, the request
    follows, and what comes after it is silent again. *)
Ltac sends_tac :=
  repeat first
    [ progress cbv zeta
    | solve [apply sends_silent; auto with py]
    | apply sends_bind_silent_l; [solve [auto with py]|intros ?]
    | apply sends_bind_silent_r; [solve [auto with py]|intros ?; auto with py] ].

(** X6. Whatever the state of the object it is called on, a public
    operation never issues more than one request, never drops an entry of
    the log, and sends what it sends over the session the object holds. *)
Theorem at_most_one_request (server : list Exchange → Reply) (op : Op)
    (self : loc) (σ : State) :
  net (call server op self σ).2 = net σ
  ∨ ∃ s req, session_of σ self = Some s
             ∧ net (call server op self σ).2 = net σ ++ [(s, req)].
Proof.
  revert σ. change (sends_at_most_once self (call server op self)).
  destruct op; unfold call, list_notebooks, get_status_of_all_paragraphs,
    get_note_info, delete_note, clone_note, export_note, import_note,
    run_all_paragraph, stop_all_paragraph, clear_all_pargraph_results,
    create_paragraph, get_paragraph_info, get_paragraph_status,
    update_paragraph_config, delete_paragraph, run_paragraph_asynchronously,
    run_paragraph_synchronously, stop_paragraph; sends_tac.
Qed.

(** ** Identifiers and names are inserted as they are *)

(** X7. Note and paragraph identifiers go into the path without any
    quoting, so a slash in an identifier moves the request to another
    endpoint: [get_note_info] with identifier [job/n] is
    [get_status_of_all_paragraphs] with [n], [delete_note] with [job/n] is
    [stop_all_paragraph] with [n], and [get_status_of_all_paragraphs] with
    [n/p] is [get_paragraph_status] with [n] and [p], in every state. *)
Theorem identifiers_not_quoted (server : list Exchange → Reply) (self : loc)
    (n p : string) (σ : State) :
  get_note_info server self ("job/" +:+ n) σ
  = get_status_of_all_paragraphs server self n σ
  ∧ delete_note server self ("job/" +:+ n) σ
    = stop_all_paragraph server self n σ
  ∧ get_status_of_all_paragraphs server self (n +:+ "/" +:+ p) σ
    = get_paragraph_status server self n p σ.
Proof.
  unfold get_note_info, get_status_of_all_paragraphs, delete_note,
    stop_all_paragraph, get_paragraph_status.
  rewrite !bind_eq.
  destruct (get_baseuri self σ) as [[b|e|] σ1]; [|done..].
  rewrite !bind_eq. unfold lift.
  rewrite !format_note, !format_job, format_job_paragraph. done.
Qed.

(** X8. The body of the request of [clone_note]: without a name, or with
    the empty name, there is none; with any other name it is the text of a
    JSON object with the one key [name], in which the name stands between
    double quotes as it is, nothing in it being escaped. *)
Theorem clone_note_body (server : list Exchange → Reply) (noteid : string)
    (name : option string) (σ : State) (self : loc) (s : SessionRef)
    (b : string) :
  constructed σ self s b →
  net (clone_note server self noteid name σ).2
  = net σ ++
    [(s, mkRequest "DELETE" (b +:+ "/notebook/" +:+ noteid)
           match name with
           | None => None
           | Some n =>
               if decide (n = "") then None
               else Some ("{" +:+ dquote +:+ "name" +:+ dquote +:+ ":"
                          +:+ dquote +:+ n +:+ dquote +:+ "}")
           end)].
Proof.
  intros Hself. unfold clone_note. py_run Hself.
  assert (clone_body name
          = match name with
            | None => None
            | Some n =>
                if decide (n = "") then None
                else Some ("{" +:+ dquote +:+ "name" +:+ dquote +:+ ":"
                           +:+ dquote +:+ n +:+ dquote +:+ "}")
            end) as -> by (by destruct name as [[|c n]|]).
  unfold Session_request. cbv zeta.
  destruct (server _) as [r|]; [|reflexivity].
  by rewrite silent_json_body_of.
Qed.

(** ** Construction and login *)

Lemma ZeppelinClient_login_state (server : list Exchange → Reply)
    (host : string) (port : Z) (u p pattern : string) (σ σ1 : State)
    (self : loc) (b : string) :
  str_format pattern (init_kwargs host port) = Return b →
  brace_free b = true →
  ZeppelinClient server host port (Some (u, p)) pattern σ = (Return self, σ1) →
  self = fresh (dom (heap σ))
  ∧ σ1 = set_net (net σ ++ [(next_session σ,
                             mkRequest "POST" (login_uri b u p) None)])
           (after_init σ self (Some b)).
Proof.
  intros Hfmt Hb. rewrite ZeppelinClient_eq. cbv zeta. rewrite Hfmt.
  rewrite bind_eq, (login_eq _ _ _ _ _ _ _ (constructed_after_init _ _ _)).
  rewrite (format_login _ _ _ Hb). cbv zeta.
  change (net (after_init σ (fresh (dom (heap σ))) (Some b))) with (net σ).
  destruct (server _) as [r|]; [|discriminate].
  destruct (Response_ok r); [|discriminate].
  by intros [= <- <-].
Qed.

Lemma ZeppelinClient_next_session (server : list Exchange → Reply)
    (host : string) (port : Z) (auth : option (string * string))
    (pattern : string) (σ σ' : State) (self : loc) :
  ZeppelinClient server host port auth pattern σ = (Return self, σ') →
  next_session σ' = S (next_session σ).
Proof.
  rewrite ZeppelinClient_eq. cbv zeta.
  destruct (str_format pattern _) as [b|e|]; [|discriminate..].
  destruct auth as [[u p]|].
  - rewrite bind_eq, (login_eq _ _ _ _ _ _ _ (constructed_after_init _ _ _)).
    destruct (str_format _ _) as [uri|e|]; [|discriminate..]. cbv zeta.
    destruct (server _) as [r|]; [|discriminate].
    destruct (Response_ok r); [|discriminate].
    by intros [= <- <-].
  - by intros [= <- <-].
Qed.

(** X9. Every construction makes a new object with a session of its own:
    of two clients constructed one after the other, the references differ,
    the sessions differ, and the second construction leaves the session
    and the base URI of the first client as they were. *)
Theorem clients_do_not_share_sessions (server : list Exchange → Reply)
    (host1 host2 : string) (port1 port2 : Z)
    (auth1 auth2 : option (string * string)) (pattern1 pattern2 : string)
    (σ σ1 σ2 : State) (c1 c2 : loc) :
  ZeppelinClient server host1 port1 auth1 pattern1 σ = (Return c1, σ1) →
  ZeppelinClient server host2 port2 auth2 pattern2 σ1 = (Return c2, σ2) →
  c1 ≠ c2
  ∧ session_of σ2 c1 = Some (next_session σ)
  ∧ session_of σ2 c2 = Some (S (next_session σ))
  ∧ session_of σ2 c1 = session_of σ1 c1
  ∧ baseuri_of σ2 c1 = baseuri_of σ1 c1.
Proof.
  intros H1 H2.
  pose proof (ZeppelinClient_next_session _ _ _ _ _ _ _ _ H1) as Hnext.
  apply ZeppelinClient_returns in H1 as (_ & b1 & _ & Hheap1).
  apply ZeppelinClient_returns in H2 as (Hc2 & b2 & _ & Hheap2).
  assert (c1 ≠ c2) as Hne.
  { intros <-. pose proof (fresh_unallocated σ1) as Hfresh.
    rewrite <- Hc2, Hheap1, lookup_insert_eq in Hfresh. discriminate. }
  split; [exact Hne|]. unfold session_of, baseuri_of.
  rewrite Hheap2, lookup_insert_eq, lookup_insert_ne by done.
  rewrite Hheap1, lookup_insert_eq, Hnext. done.
Qed.

(** X10. The session that carried the login carries the operations that
    follow: after a construction with credentials, an implemented operation
    on the new client leaves in the log the login request and then its own
    request, both over the session made by the constructor. *)
Theorem login_session_is_reused (server : list Exchange → Reply)
    (host : string) (port : Z) (u p pattern : string) (op : Op)
    (req : Request) (σ σ1 : State) (self : loc) (b : string) :
  str_format pattern (init_kwargs host port) = Return b →
  brace_free b = true →
  ZeppelinClient server host port (Some (u, p)) pattern σ = (Return self, σ1) →
  implemented (method_of op) = true →
  request_of b op = Some req →
  net (call server op self σ1).2
  = net σ ++ [(next_session σ, mkRequest "POST" (login_uri b u p) None);
              (next_session σ, req)].
Proof.
  intros Hfmt Hb Hret Himpl Hreq.
  apply (ZeppelinClient_login_state _ _ _ _ _ _ _ _ _ _ Hfmt Hb) in Hret
    as [-> ->].
  assert (constructed
            (set_net (net σ ++ [(next_session σ,
                                 mkRequest "POST" (login_uri b u p) None)])
               (after_init σ (fresh (dom (heap σ))) (Some b)))
            (fresh (dom (heap σ))) (next_session σ) b) as Hself
    by apply constructed_after_init.
  rewrite (call_net _ _ _ _ _ _ _ Himpl Hself Hreq). cbn.
  by rewrite <- app_assoc.
Qed.


(** X12. A login that the transport fails is not retried: the constructor
    raises the transport's exception after the one attempt. *)
Theorem login_transport_failure (server : list Exchange → Reply)
    (host : string) (port : Z) (u p pattern : string) (σ : State)
    (b : string) :
  str_format pattern (init_kwargs host port) = Return b →
  brace_free b = true →
  server (net σ ++ [(next_session σ,
                     mkRequest "POST" (login_uri b u p) None)])
  = TransportError →
  (ZeppelinClient server host port (Some (u, p)) pattern σ).1
  = Raise ConnectionError
  ∧ net (ZeppelinClient server host port (Some (u, p)) pattern σ).2
    = net σ ++ [(next_session σ, mkRequest "POST" (login_uri b u p) None)].
Proof.
  intros Hfmt Hb Hfail. rewrite ZeppelinClient_eq. cbv zeta. rewrite Hfmt.
  rewrite bind_eq, (login_eq _ _ _ _ _ _ _ (constructed_after_init _ _ _)).
  rewrite (format_login _ _ _ Hb). cbv zeta.
  change (net (after_init σ (fresh (dom (heap σ))) (Some b))) with (net σ).
  by rewrite Hfail.
Qed.

(** X13. [_login] called again on a constructed client whose base URI
    holds no brace: one POST of the login URI over the session the client
    already has, no new session, the client untouched; it returns [None]
    when the response is [ok] and raises the login error otherwise. *)
Theorem login_again (server : list Exchange → Reply) (σ : State) (self : loc)
    (s : SessionRef) (b u p : string) :
  constructed σ self s b →
  brace_free b = true →
  net (_login server self u p σ).2
  = net σ ++ [(s, mkRequest "POST" (login_uri b u p) None)]
  ∧ heap (_login server self u p σ).2 = heap σ
  ∧ next_session (_login server self u p σ).2 = next_session σ
  ∧ ∀ r,
      server (net σ ++ [(s, mkRequest "POST" (login_uri b u p) None)])
      = Responded r →
      (_login server self u p σ).1
      = if Response_ok r then Return PyNone
        else Raise (Exception_ (reason r +:+ ": cannot login to zeppelin : "
                                +:+ login_uri b u p)).
Proof.
  intros Hself Hb. rewrite (login_eq _ _ _ _ _ _ _ Hself).
  rewrite (format_login _ _ _ Hb). cbv zeta. repeat split.
  - by destruct (server _).
  - by destruct (server _).
  - by destruct (server _).
  - by intros r ->.
Qed.

(** ** Templates that are not the default *)

Lemma ident_char_not_brace (c : ascii) :
  is_ident_char c = true →
  Ascii.eqb c "{" = false ∧ Ascii.eqb c "}" = false.
Proof.
  destruct c as [[] [] [] [] [] [] [] []]; cbn; intros; try discriminate;
    by split.
Qed.

Lemma append_snoc (acc : string) (c : ascii) (s : string) :
  (acc +:+ String c EmptyString) +:+ s = acc +:+ String c s.
Proof. by rewrite append_assoc. Qed.

(** A template that starts with brace-free text and placeholders. *)
Lemma format_from_prefix (host : string) (port : Z) (segs : list Segment)
    (t : string) :
  Forall (λ seg, literal_ok seg = true) segs →
  format_from (template_of segs +:+ t) None (init_kwargs host port)
  = result_bind (format_from t None (init_kwargs host port))
      (λ r, Return (substitute host port segs +:+ r)).
Proof.
  induction 1 as [|seg segs Hseg _ IH].
  - change (template_of [] +:+ t) with t.
    by destruct (format_from t None _).
  - cbn [template_of substitute]. rewrite append_assoc.
    destruct seg as [s| |]; cbn [segment_text segment_value].
    + rewrite (format_from_literal _ _ _ Hseg), IH.
      destruct (format_from t None _); cbn; [|done..].
      by rewrite append_assoc.
    + rewrite format_from_host, IH.
      destruct (format_from t None _); cbn; [|done..].
      by rewrite append_assoc.
    + rewrite format_from_port, IH.
      destruct (format_from t None _); cbn; [|done..].
      by rewrite append_assoc.
Qed.

(** Inside a field, the characters of a name are collected up to the
    closing brace. *)
Lemma format_from_field (name acc rest : string) (kw : kwargs) :
  all_ident_chars name = true →
  format_from (name +:+ "}" +:+ rest) (Some acc) kw
  = result_bind (format_field (acc +:+ name) kw) (λ v,
    result_bind (format_from rest None kw) (λ r, Return (v +:+ r))).
Proof.
  revert acc. induction name as [|c name IH]; intros acc Hname.
  - rewrite append_empty_r. reflexivity.
  - cbn in Hname. apply andb_prop in Hname as [Hc Hname].
    destruct (ident_char_not_brace c Hc) as [Ho Hcl].
    rewrite append_cons. cbn [format_from]. rewrite Ho, Hcl.
    by rewrite (IH _ Hname), append_snoc.
Qed.

Lemma format_from_unclosed (name acc : string) (kw : kwargs) :
  all_ident_chars name = true →
  format_from name (Some acc) kw = Raise ValueError.
Proof.
  revert acc. induction name as [|c name IH]; intros acc Hname; [done|].
  cbn in Hname. apply andb_prop in Hname as [Hc Hname].
  destruct (ident_char_not_brace c Hc) as [Ho Hcl].
  cbn [format_from]. rewrite Ho, Hcl. by apply IH.
Qed.

Lemma plain_name_chars (name : string) :
  plain_name name = true →
  all_ident_chars name = true
  ∧ ∃ c name', name = String c name' ∧ Ascii.eqb c "{" = false.
Proof.
  destruct name as [|c name']; [discriminate|]. cbn [plain_name].
  intros [_ Hall]%andb_prop. split; [exact Hall|].
  exists c, name'. split; [reflexivity|].
  cbn in Hall. apply andb_prop in Hall as [Hc _].
  by destruct (ident_char_not_brace c Hc).
Qed.

Lemma format_from_open (name t : string) (kw : kwargs) :
  plain_name name = true →
  format_from ("{" +:+ name +:+ t) None kw
  = format_from (name +:+ t) (Some EmptyString) kw.
Proof.
  intros (_ & c & name' & -> & Hc)%plain_name_chars.
  change ("{" +:+ String c name' +:+ t)
    with (String "{" (String c (name' +:+ t))).
  change (String c name' +:+ t) with (String c (name' +:+ t)).
  cbn [format_from]. change (Ascii.eqb "{" "{") with true. cbv iota.
  by rewrite Hc.
Qed.

Lemma format_field_unknown (name host : string) (port : Z) :
  plain_name name = true → name ≠ "host" → name ≠ "port" →
  format_field name (init_kwargs host port) = Raise (KeyError name).
Proof.
  intros Hplain Hhost Hport. unfold format_field. rewrite Hplain.
  destruct name as [|c name']; [discriminate|].
  unfold init_kwargs. cbn [lookup_kw].
  assert (String.eqb "host" (String c name') = false) as ->
    by (apply String.eqb_neq; congruence).
  assert (String.eqb "port" (String c name') = false) as ->
    by (apply String.eqb_neq; congruence).
  reflexivity.
Qed.

Lemma format_from_empty_field (rest : string) (kw : kwargs) :
  format_from ("{}" +:+ rest) None kw = Raise IndexError.
Proof. reflexivity. Qed.

(** X14. A template that does not format stops the constructor before
    any login.  After brace-free text and placeholders: a field whose name
    is an identifier other than [host] and [port] makes the constructor
    raise [KeyError] for that name; the empty field makes it raise
    [IndexError]; and a template that ends inside a field, after a brace
    and an identifier, makes it raise [ValueError].  In all three cases no
    request is issued, credentials or not, and the object is left with a
    session and without a base URI. *)
Theorem template_errors_stop_construction (server : list Exchange → Reply)
    (host : string) (port : Z) (auth : option (string * string))
    (segs : list Segment) (name : string) (σ : State) :
  Forall (λ seg, literal_ok seg = true) segs →
  plain_name name = true →
  (name ≠ "host" → name ≠ "port" → ∀ rest,
   ZeppelinClient server host port auth
     (template_of segs +:+ "{" +:+ name +:+ "}" +:+ rest) σ
   = (Raise (KeyError name), after_init σ (fresh (dom (heap σ))) None))
  ∧ (∀ rest,
     ZeppelinClient server host port auth
       (template_of segs +:+ "{}" +:+ rest) σ
     = (Raise IndexError, after_init σ (fresh (dom (heap σ))) None))
  ∧ ZeppelinClient server host port auth
      (template_of segs +:+ "{" +:+ name) σ
    = (Raise ValueError, after_init σ (fresh (dom (heap σ))) None)
  ∧ net (after_init σ (fresh (dom (heap σ))) None) = net σ
  ∧ session_of (after_init σ (fresh (dom (heap σ))) None)
      (fresh (dom (heap σ))) = Some (next_session σ)
  ∧ baseuri_of (after_init σ (fresh (dom (heap σ))) None)
      (fresh (dom (heap σ))) = None.
Proof.
  intros Hsegs Hplain.
  destruct (plain_name_chars _ Hplain) as [Hall _].
  split; [|split; [|split; [|split; [|split]]]].
  - intros Hhost Hport rest. rewrite ZeppelinClient_eq. cbv zeta.
    unfold str_format.
    rewrite (format_from_prefix _ _ _ _ Hsegs), (format_from_open _ _ _ Hplain).
    rewrite (format_from_field _ _ _ _ Hall).
    change ("" +:+ name) with name.
    by rewrite (format_field_unknown _ _ _ Hplain Hhost Hport).
  - intros rest. rewrite ZeppelinClient_eq. cbv zeta. unfold str_format.
    by rewrite (format_from_prefix _ _ _ _ Hsegs), format_from_empty_field.
  - rewrite ZeppelinClient_eq. cbv zeta. unfold str_format.
    rewrite (format_from_prefix _ _ _ _ Hsegs).
    rewrite <- (append_empty_r name) at 1.
    rewrite (format_from_open _ _ _ Hplain), append_empty_r.
    by rewrite (format_from_unclosed _ _ _ Hall).
  - reflexivity.
  - unfold session_of, after_init. cbn. by rewrite lookup_insert_eq.
  - unfold baseuri_of, after_init. cbn. by rewrite lookup_insert_eq.
Qed.

Lemma format_escape_braces (s : string) (kw : kwargs) :
  format_from (escape_braces s) None kw = Return s.
Proof.
  induction s as [|c s IH]; [reflexivity|].
  cbn [escape_braces]. unfold is_brace.
  destruct (Ascii.eqb c "{") eqn:Ho.
  - apply Ascii.eqb_eq in Ho as ->. cbn. by rewrite IH.
  - destruct (Ascii.eqb c "}") eqn:Hc; cbn [orb].
    + apply Ascii.eqb_eq in Hc as ->. cbn. by rewrite IH.
    + cbn [format_from]. by rewrite Ho, Hc, IH.
Qed.

(** X15. Doubled braces are the way to a literal brace: with a template
    in which every brace of a text is doubled, the base URI of the client
    is that text, whatever the host and the port, which are not used. *)
Theorem escaped_template_is_literal (server : list Exchange → Reply)
    (host : string) (port : Z) (text : string) (σ : State) :
  ZeppelinClient server host port None (escape_braces text) σ
  = (Return (fresh (dom (heap σ))),
     after_init σ (fresh (dom (heap σ))) (Some text))
  ∧ baseuri_of (after_init σ (fresh (dom (heap σ))) (Some text))
      (fresh (dom (heap σ))) = Some text.
Proof.
  split.
  - rewrite ZeppelinClient_eq. cbv zeta. unfold str_format.
    by rewrite format_escape_braces.
  - unfold baseuri_of, after_init. cbn. by rewrite lookup_insert_eq.
Qed.

(** ** The further properties at concrete inputs *)

Lemma transport_failure_not_retried_witness :
  call unreachable (DeleteNote "2A94M5J1Z") 1%positive example_state
  = (Raise ConnectionError,
     set_net [(0%nat,
               mkRequest "DELETE" "http://localhost:6080/api/notebook/2A94M5J1Z"
                 None)] example_state).
Proof.
  exact (transport_failure_not_retried unreachable (DeleteNote "2A94M5J1Z")
           (mkRequest "DELETE" "http://localhost:6080/api/notebook/2A94M5J1Z"
              None)
           example_state 1%positive 0%nat example_baseuri
           eq_refl eq_refl eq_refl eq_refl).
Defined.

Lemma body_of_non_object_response_witness :
  (call (always html_response) ListNotebooks 1%positive example_state).1
  = Raise ValueError
  ∧ (call (always list_response) ListNotebooks 1%positive example_state).1
    = Raise TypeError.
Proof.
  split.
  - destruct (body_of_non_object_response (always html_response)
                ListNotebooks (mkRow "GET" (λ _ _, "/notebook") true)
                (mkRequest "GET" "http://localhost:6080/api/notebook" None)
                example_state 1%positive 0%nat example_baseuri html_response
                eq_refl eq_refl eq_refl eq_refl eq_refl) as [Hnone _].
    by rewrite (Hnone eq_refl).
  - destruct (body_of_non_object_response (always list_response)
                ListNotebooks (mkRow "GET" (λ _ _, "/notebook") true)
                (mkRequest "GET" "http://localhost:6080/api/notebook" None)
                example_state 1%positive 0%nat example_baseuri list_response
                eq_refl eq_refl eq_refl eq_refl eq_refl) as [_ Hsome].
    by rewrite (Hsome (PyList []) eq_refl eq_refl).
Defined.

Lemma unchecked_operations_return_none_witness :
  call (always server_error) (RunAllParagraph "2A94M5J1Z") 1%positive
    example_state
  = (Return PyNone,
     set_net [(0%nat,
               mkRequest "POST"
                 "http://localhost:6080/api/notebook/job/2A94M5J1Z" None)]
       example_state).
Proof.
  exact (unchecked_operations_return_none (always server_error)
           (RunAllParagraph "2A94M5J1Z")
           (mkRow "POST" (λ n _, "/notebook/job/" +:+ n) false)
           (mkRequest "POST" "http://localhost:6080/api/notebook/job/2A94M5J1Z"
              None)
           example_state 1%positive 0%nat example_baseuri server_error
           eq_refl eq_refl eq_refl eq_refl eq_refl eq_refl).
Defined.

Lemma status_never_inspected_witness :
  status_code notes_response ≠ status_code notes_response_500
  ∧ call (always notes_response) ListNotebooks 1%positive example_state
    = call (always notes_response_500) ListNotebooks 1%positive example_state.
Proof.
  split; [discriminate|].
  exact (status_never_inspected (always notes_response)
           (always notes_response_500) ListNotebooks
           (mkRequest "GET" "http://localhost:6080/api/notebook" None)
           example_state 1%positive 0%nat example_baseuri notes_response
           notes_response_500 eq_refl eq_refl eq_refl eq_refl eq_refl eq_refl).
Defined.

Lemma sequence_of_operations_witness :
  net (run_ops (always server_error)
         [RunAllParagraph "2A94M5J1Z"; GetNoteInfo "2A94M5J1Z";
          StopAllParagraph "2A94M5J1Z"] 1%positive example_state)
  = [(0%nat, mkRequest "POST"
               "http://localhost:6080/api/notebook/job/2A94M5J1Z" None);
     (0%nat, mkRequest "GET"
               "http://localhost:6080/api/notebook/2A94M5J1Z" None);
     (0%nat, mkRequest "DELETE"
               "http://localhost:6080/api/notebook/job/2A94M5J1Z" None)].
Proof.
  destruct (sequence_of_operations (always server_error)
              [RunAllParagraph "2A94M5J1Z"; GetNoteInfo "2A94M5J1Z";
               StopAllParagraph "2A94M5J1Z"] example_state 1%positive 0%nat
              example_baseuri eq_refl) as [_ Hlog].
  destruct Hlog as [Hnet _]; [repeat constructor|].
  rewrite Hnet. reflexivity.
Defined.

Lemma clone_note_body_witness :
  net (clone_note (always notes_response) 1%positive "2A94M5J1Z" (Some "")
         example_state).2
  = [(0%nat,
      mkRequest "DELETE" "http://localhost:6080/api/notebook/2A94M5J1Z" None)].
Proof.
  exact (clone_note_body (always notes_response) "2A94M5J1Z" (Some "")
           example_state 1%positive 0%nat example_baseuri eq_refl).
Defined.

Lemma clients_do_not_share_sessions_witness :
  session_of
    (ZeppelinClient (always notes_response) "zeppelin.example.org" 8080 None
       BASEURI_PATTERN example_state).2 1%positive = Some 0%nat
  ∧ session_of
      (ZeppelinClient (always notes_response) "zeppelin.example.org" 8080
         None BASEURI_PATTERN example_state).2 2%positive = Some 1%nat.
Proof.
  destruct (clients_do_not_share_sessions (always notes_response)
              "localhost" "zeppelin.example.org" 6080 8080 None None
              BASEURI_PATTERN BASEURI_PATTERN initial_state example_state
              (ZeppelinClient (always notes_response) "zeppelin.example.org"
                 8080 None BASEURI_PATTERN example_state).2
              1%positive 2%positive eq_refl eq_refl)
    as (_ & Hfirst & Hsecond & _).
  split; [exact Hfirst | exact Hsecond].
Defined.

Lemma login_session_is_reused_witness :
  net (call (always notes_response) ListNotebooks 1%positive
         (ZeppelinClient (always notes_response) "localhost" 6080
            (Some ("admin", "secret")) BASEURI_PATTERN initial_state).2).2
  = [(0%nat,
      mkRequest "POST"
        "http://localhost:6080/api/login?userName=admin&password=secret" None);
     (0%nat, mkRequest "GET" "http://localhost:6080/api/notebook" None)].
Proof.
  exact (login_session_is_reused (always notes_response) "localhost" 6080
           "admin" "secret" BASEURI_PATTERN ListNotebooks
           (mkRequest "GET" "http://localhost:6080/api/notebook" None)
           initial_state
           (ZeppelinClient (always notes_response) "localhost" 6080
              (Some ("admin", "secret")) BASEURI_PATTERN initial_state).2
           1%positive example_baseuri eq_refl eq_refl eq_refl eq_refl eq_refl).
Defined.

Lemma login_transport_failure_witness :
  (ZeppelinClient unreachable "localhost" 6080 (Some ("admin", "secret"))
     BASEURI_PATTERN initial_state).1 = Raise ConnectionError
  ∧ net (ZeppelinClient unreachable "localhost" 6080
           (Some ("admin", "secret")) BASEURI_PATTERN initial_state).2
    = [(0%nat,
        mkRequest "POST"
          "http://localhost:6080/api/login?userName=admin&password=secret"
          None)].
Proof.
  exact (login_transport_failure unreachable "localhost" 6080 "admin" "secret"
           BASEURI_PATTERN initial_state example_baseuri
           eq_refl eq_refl eq_refl).
Defined.

Lemma login_again_witness :
  (_login (always unauthorized) 1%positive "admin" "secret" example_state).1
  = Raise (Exception_
             ("Unauthorized: cannot login to zeppelin : "
              +:+ "http://localhost:6080/api/login?userName=admin&password=secret"))
  ∧ next_session
      (_login (always unauthorized) 1%positive "admin" "secret"
         example_state).2 = 1%nat.
Proof.
  destruct (login_again (always unauthorized) example_state 1%positive 0%nat
              example_baseuri "admin" "secret" eq_refl eq_refl)
    as (_ & _ & Hnext & Hres).
  split; [exact (Hres unauthorized eq_refl) | exact Hnext].
Defined.

Lemma template_errors_stop_construction_witness :
  ZeppelinClient (always notes_response) "localhost" 6080
    (Some ("admin", "secret")) "http://{server}:{port}/api" initial_state
  = (Raise (KeyError "server"), after_init initial_state 1%positive None)
  ∧ ZeppelinClient (always notes_response) "localhost" 6080
      (Some ("admin", "secret")) "http://{}:{port}/api" initial_state
    = (Raise IndexError, after_init initial_state 1%positive None)
  ∧ ZeppelinClient (always notes_response) "localhost" 6080
      (Some ("admin", "secret")) "http://{host}:{port" initial_state
    = (Raise ValueError, after_init initial_state 1%positive None).
Proof.
  split; [|split].
  - destruct (template_errors_stop_construction (always notes_response)
                "localhost" 6080 (Some ("admin", "secret")) [Lit "http://"]
                "server" initial_state) as (Hkey & _).
    + repeat constructor.
    + reflexivity.
    + exact (Hkey ltac:(discriminate) ltac:(discriminate) ":{port}/api").
  - destruct (template_errors_stop_construction (always notes_response)
                "localhost" 6080 (Some ("admin", "secret")) [Lit "http://"]
                "server" initial_state) as (_ & Hempty & _).
    + repeat constructor.
    + reflexivity.
    + exact (Hempty ":{port}/api").
  - destruct (template_errors_stop_construction (always notes_response)
                "localhost" 6080 (Some ("admin", "secret"))
                [Lit "http://"; HostField; Lit ":"] "port" initial_state)
      as (_ & _ & Hopen & _).
    + repeat constructor.
    + reflexivity.
    + exact Hopen.
Defined.

